(** * Outgoing webhooks: a shallow embedding of [webhook_outgoing]

    The development follows the two Python modules of the add-on:

    - [helpers.py]: the [escape] helper handed to GraphQL templates
      ([get_escaped_value]);
    - [models/ir_action_server.py]: the server action that renders a
      template, sends one HTTP request per record, classifies the answer
      and writes the audit log.

    Python values are modelled by the inductive [pyval]; a Python [str] is
    the list of its code points.  Third-party code (jinja2, requests, json,
    Odoo's [safe_eval] and [ustr], the job queue) is not part of the add-on:
    it is collected in the record [Externals]; the general theorems hold
    for an arbitrary instance of it, and the worked scenarios run the code
    in the closed world of [Scenario]. *)

From Stdlib Require Import ZArith NArith List String Ascii Bool Lia.
From Stdlib Require Import DecimalString.
From Stdlib Require Import Floats.SpecFloat.
From stdpp Require Import base option list gmap.

Local Open Scope Z_scope.
Local Set Warnings "-register-all".

(* ===================================================================== *)
(** ** Python data *)
(* ===================================================================== *)

(** A Python [str]: the sequence of its Unicode code points.  [bytes]
    objects use the same carrier, with every element below 256. *)
Definition pystr := list N.

(** [u "text"] is the Python literal ['text'] (ASCII only). *)
Definition u (s : string) : pystr :=
  map N_of_ascii (list_ascii_of_string s).

Definition pystr_eqb (a b : pystr) : bool := bool_decide (a = b).

(** The values that flow through the add-on: JSON documents as
    [json.loads] builds them, field values of records, the payloads. A
    [dict] keeps its insertion order, hence the association list. *)
Inductive pyval : Type :=
| PNone
| PBool (b : bool)
| PInt (z : Z)
| PFloat (f : spec_float)
| PStr (s : pystr)
| PBytes (b : list N)
| PList (l : list pyval)
| PDict (d : list (pyval * pyval)).

Definition PFalse : pyval := PBool false.

(** [bool(v)] *)
Definition py_truthy (v : pyval) : bool :=
  match v with
  | PNone => false
  | PBool b => b
  | PInt z => negb (z =? 0)
  | PFloat (S754_zero _) => false
  | PFloat _ => true
  | PStr s => match s with [] => false | _ => true end
  | PBytes b => match b with [] => false | _ => true end
  | PList l => match l with [] => false | _ => true end
  | PDict d => match d with [] => false | _ => true end
  end.

(** [isinstance(v, str)] and [isinstance(v, dict)] *)
Definition isinstance_str (v : pyval) : bool :=
  match v with PStr _ => true | _ => false end.

Definition isinstance_dict (v : pyval) : bool :=
  match v with PDict _ => true | _ => false end.

(** The exact value of a finite binary float is [m * 2^e]; Python compares
    a float with an int exactly. *)
Definition float_eq_int (f : spec_float) (n : Z) : bool :=
  match f with
  | S754_zero _ => n =? 0
  | S754_finite s m e =>
      let sm := if s then Z.neg m else Z.pos m in
      if 0 <=? e then sm * 2 ^ e =? n else sm =? n * 2 ^ (- e)
  | _ => false
  end.

(** [v == n] for an int literal [n] *)
Definition py_eq_int (v : pyval) (n : Z) : bool :=
  match v with
  | PInt z => z =? n
  | PBool b => (if b then 1 else 0) =? n
  | PFloat f => float_eq_int f n
  | _ => false
  end.

(** [d.get(k)] for a str key: only a str key can be equal to it. *)
Definition is_key (k : pystr) (kv : pyval * pyval) : bool :=
  match fst kv with PStr s => pystr_eqb s k | _ => false end.

Definition dict_get (d : list (pyval * pyval)) (k : pystr) : pyval :=
  match find (is_key k) d with
  | Some kv => snd kv
  | None => PNone
  end.

(* ===================================================================== *)
(** ** [str] methods used by the add-on *)
(* ===================================================================== *)

Module PyStr.

(** [ch.isspace()]: the code points for which CPython's
    [Py_UNICODE_ISSPACE] holds. *)
Definition isspace (c : N) : bool :=
  (((9 <=? c) && (c <=? 13)) || ((28 <=? c) && (c <=? 32))
   || (c =? 133) || (c =? 160) || (c =? 5760)
   || ((8192 <=? c) && (c <=? 8202))
   || (c =? 8232) || (c =? 8233) || (c =? 8239) || (c =? 8287)
   || (c =? 12288))%N.

Fixpoint lstrip (s : pystr) : pystr :=
  match s with
  | c :: s' => if isspace c then lstrip s' else s
  | [] => []
  end.

Definition rstrip (s : pystr) : pystr := rev (lstrip (rev s)).

(** [s.strip()] *)
Definition strip (s : pystr) : pystr := rstrip (lstrip s).

Fixpoint startswith (p s : pystr) : bool :=
  match p, s with
  | [], _ => true
  | a :: p', b :: s' => (a =? b)%N && startswith p' s'
  | _ :: _, [] => false
  end.

(** The left-to-right scan of [s.replace(old, new)] for a non-empty
    [old]: [skip] counts the characters of a match still to be passed. *)
Fixpoint replace_scan (old new s : pystr) (skip : nat) : pystr :=
  match s with
  | [] => []
  | c :: s' =>
      match skip with
      | S k => replace_scan old new s' k
      | O =>
          if startswith old s
          then new ++ replace_scan old new s' (Nat.pred (length old))
          else c :: replace_scan old new s' 0
      end
  end.

(** [s.replace(old, new)]; an empty [old] matches between any two
    characters and at both ends. *)
Definition replace (old new s : pystr) : pystr :=
  match old with
  | [] => new ++ flat_map (fun c => c :: new) s
  | _ => replace_scan old new s 0
  end.

End PyStr.

(* ===================================================================== *)
(** ** [repr] of Python values, and the literals it writes *)
(* ===================================================================== *)

(** [str(d)] of a dict is its [repr]. The functions below follow
    CPython: [unicode_repr] for a str, [bytes_repr] for bytes, the
    containers' [repr]. Two things are left to the caller: which code
    points above 127 the Unicode database calls printable, and the
    shortest decimal form of a float. *)
Module PyRepr.

Definition hex_digit (n : N) : N :=
  (if n <? 10 then 48 + n else 87 + n)%N.

Definition hex2 (c : N) : pystr :=
  [hex_digit (c / 16); hex_digit (c mod 16)]%N.

Definition hex4 (c : N) : pystr :=
  [hex_digit (c / 4096); hex_digit ((c / 256) mod 16);
   hex_digit ((c / 16) mod 16); hex_digit (c mod 16)]%N.

Definition hex8 (c : N) : pystr :=
  [hex_digit (c / 268435456); hex_digit ((c / 16777216) mod 16);
   hex_digit ((c / 1048576) mod 16); hex_digit ((c / 65536) mod 16);
   hex_digit ((c / 4096) mod 16); hex_digit ((c / 256) mod 16);
   hex_digit ((c / 16) mod 16); hex_digit (c mod 16)]%N.

Definition has_char (c : N) (s : pystr) : bool := existsb (N.eqb c) s.

(** The quote around the literal: a double quote only when the text has
    a single quote and no double quote. *)
Definition choose_quote (s : pystr) : N :=
  if has_char 39 s && negb (has_char 34 s) then 34%N else 39%N.

Section Str.

Variable isprintable : N -> bool.

Definition repr_char (quote c : N) : pystr :=
  (if (c =? quote) || (c =? 92) then [92; c]
   else if c =? 9 then [92; 116]
   else if c =? 10 then [92; 110]
   else if c =? 13 then [92; 114]
   else if (c <? 32) || (c =? 127) then 92 :: 120 :: hex2 c
   else if c <? 127 then [c]
   else if isprintable c then [c]
   else if c <=? 255 then 92 :: 120 :: hex2 c
   else if c <=? 65535 then 92 :: 117 :: hex4 c
   else 92 :: 85 :: hex8 c)%N.

Definition repr_str (s : pystr) : pystr :=
  let quote := choose_quote s in
  [quote] ++ flat_map (repr_char quote) s ++ [quote].

(** One [key: value] of the display of a dict of str. *)
Definition repr_entry (kv : pystr * pystr) : pystr :=
  repr_str (fst kv) ++ u ": " ++ repr_str (snd kv).

End Str.

Definition repr_byte (quote c : N) : pystr :=
  (if (c =? quote) || (c =? 92) then [92; c]
   else if c =? 9 then [92; 116]
   else if c =? 10 then [92; 110]
   else if c =? 13 then [92; 114]
   else if (c <? 32) || (127 <=? c) then 92 :: 120 :: hex2 c
   else [c])%N.

Definition repr_bytes (b : list N) : pystr :=
  let quote := choose_quote b in
  [98%N; quote] ++ flat_map (repr_byte quote) b ++ [quote].

Definition repr_int (z : Z) : pystr :=
  u (DecimalString.NilZero.string_of_int (Z.to_int z)).

(** [sep.join(l)] *)
Fixpoint join (sep : pystr) (l : list pystr) : pystr :=
  match l with
  | [] => []
  | [x] => x
  | x :: l' => x ++ sep ++ join sep l'
  end.

Section Repr.

Variable isprintable : N -> bool.
Variable float_repr : spec_float -> pystr.

Fixpoint repr (v : pyval) : pystr :=
  match v with
  | PNone => u "None"
  | PBool b => if b then u "True" else u "False"
  | PInt z => repr_int z
  | PFloat f => float_repr f
  | PStr s => repr_str isprintable s
  | PBytes b => repr_bytes b
  | PList l => [91%N] ++ join (u ", ") (map repr l) ++ [93%N]
  | PDict d =>
      [123%N]
        ++ join (u ", ")
             (map (fun kv =>
                     match kv with
                     | (k, x) => repr k ++ u ": " ++ repr x
                     end) d)
        ++ [125%N]
  end.

End Repr.

End PyRepr.

(** Python source text that denotes a dict of str: a dict display whose
    keys and values are string literals. Only the forms [repr] writes
    are read (one-line literals in single or double quotes; the escapes
    for backslash, quotes, [n], [r], [t], and hexadecimal [x], [u], [U];
    the separators [, ] and [: ]); any other text is refused. *)
Module PyLiteral.

Definition hex_val (c : N) : option N :=
  (if (48 <=? c) && (c <=? 57) then Some (c - 48)
   else if (97 <=? c) && (c <=? 102) then Some (c - 87)
   else if (65 <=? c) && (c <=? 70) then Some (c - 55)
   else None)%N.

(** [n] hexadecimal digits at the head of [s], most significant first. *)
Fixpoint hex_take (n : nat) (acc : N) (s : pystr) : option (N * pystr) :=
  match n with
  | O => Some (acc, s)
  | S n' =>
      match s with
      | [] => None
      | c :: s' =>
          match hex_val c with
          | Some d => hex_take n' (16 * acc + d)%N s'
          | None => None
          end
      end
  end.

Definition is_surrogate (c : N) : bool := ((55296 <=? c) && (c <=? 57343))%N.

(** A character that may stand for itself inside a literal. *)
Definition raw_ok (c : N) : bool :=
  ((32 <=? c) && negb (c =? 127) && negb (is_surrogate c)
   && (c <=? 1114111))%N.

Inductive token : Type :=
| TClose (rest : pystr)
| TChar (c : N) (rest : pystr)
| TBad.

(** The next character of a literal delimited by [quote]. *)
Definition next_char (quote : N) (s : pystr) : token :=
  match s with
  | [] => TBad
  | c :: s' =>
      if (c =? quote)%N then TClose s'
      else if (c =? 92)%N then
        match s' with
        | [] => TBad
        | e :: s'' =>
            if ((e =? 92) || (e =? 39) || (e =? 34))%N then TChar e s''
            else if (e =? 110)%N then TChar 10 s''
            else if (e =? 114)%N then TChar 13 s''
            else if (e =? 116)%N then TChar 9 s''
            else
              let digits :=
                if (e =? 120)%N then 2%nat
                else if (e =? 117)%N then 4%nat
                else if (e =? 85)%N then 8%nat
                else 0%nat in
              match digits with
              | O => TBad
              | _ =>
                  match hex_take digits 0 s'' with
                  | Some (v, rest) =>
                      if (v <=? 1114111)%N then TChar v rest else TBad
                  | None => TBad
                  end
              end
        end
      else if raw_ok c then TChar c s' else TBad
  end.

Fixpoint eval_str_body (fuel : nat) (quote : N) (s : pystr)
  : option (pystr * pystr) :=
  match fuel with
  | O => None
  | S fuel' =>
      match next_char quote s with
      | TClose rest => Some ([], rest)
      | TChar c rest =>
          match eval_str_body fuel' quote rest with
          | Some (t, rest') => Some (c :: t, rest')
          | None => None
          end
      | TBad => None
      end
  end.

(** A string literal at the head of [s]: its value and what follows. *)
Definition eval_str_literal (s : pystr) : option (pystr * pystr) :=
  match s with
  | q :: s' =>
      if ((q =? 39) || (q =? 34))%N
      then eval_str_body (length s) q s'
      else None
  | [] => None
  end.

Definition expect (p s : pystr) : option pystr :=
  if PyStr.startswith p s then Some (drop (length p) s) else None.

(** The entries of a display after its opening brace, up to the end of
    the text. *)
Fixpoint eval_entries (fuel : nat) (s : pystr)
  : option (list (pystr * pystr)) :=
  match fuel with
  | O => None
  | S fuel' =>
      match eval_str_literal s with
      | None => None
      | Some (k, s1) =>
          match expect (u ": ") s1 with
          | None => None
          | Some s2 =>
              match eval_str_literal s2 with
              | None => None
              | Some (v, s3) =>
                  if pystr_eqb s3 (u "}") then Some [(k, v)]
                  else
                    match expect (u ", ") s3 with
                    | None => None
                    | Some s4 =>
                        match eval_entries fuel' s4 with
                        | Some l => Some ((k, v) :: l)
                        | None => None
                        end
                    end
              end
          end
      end
  end.

(** [d[k] = v] on a dict kept in insertion order. *)
Fixpoint setitem (d : list (pystr * pystr)) (k v : pystr)
  : list (pystr * pystr) :=
  match d with
  | [] => [(k, v)]
  | (k', v') :: d' =>
      if pystr_eqb k' k then (k', v) :: d' else (k', v') :: setitem d' k v
  end.

Definition build_dict (entries : list (pystr * pystr))
  : list (pystr * pystr) :=
  fold_left (fun d kv => setitem d (fst kv) (snd kv)) entries [].

(** The value of a dict display of string literals. *)
Definition eval_str_dict (s : pystr) : option (list (pystr * pystr)) :=
  if pystr_eqb s (u "{}") then Some []
  else
    match s with
    | 123%N :: s' =>
        match eval_entries (length s') s' with
        | Some entries => Some (build_dict entries)
        | None => None
        end
    | _ => None
    end.

(** A str is made of code points: nothing above U+10FFFF. *)
Definition code_points (s : pystr) : Prop :=
  Forall (fun c => (c <= 1114111)%N) s.

Definition entry_ok (kv : pystr * pystr) : Prop :=
  code_points (fst kv) /\ code_points (snd kv).

(** The dict of str as a Python value. *)
Definition str_items (d : list (pystr * pystr)) : list (pyval * pyval) :=
  map (fun kv => (PStr (fst kv), PStr (snd kv))) d.

End PyLiteral.

(* ===================================================================== *)
(** ** helpers.py *)
(* ===================================================================== *)

(** A record as the template sees it: its attributes by name. *)
Abbreviation PyRecord := (gmap pystr pyval).

Module Helpers.

Definition ESCAPE_CHARS : list pystr :=
  [[34%N]; [10%N]; [13%N]; [9%N]; [8%N]; [12%N]].

Definition REPLACE_CHARS : list pystr :=
  [[92%N; 34%N]; u "\n"; u "\r"; u "\t"; u "\b"; u "\f"].

(** [getattr(record, name, False)] *)
Definition getattr_or_false (record : PyRecord) (name : pystr) : pyval :=
  match record !! name with
  | Some v => v
  | None => PFalse
  end.

(** The [for ... in zip(ESCAPE_CHARS, REPLACE_CHARS)] loop. *)
Definition replace_all (pairs : list (pystr * pystr)) (s : pystr) : pystr :=
  fold_left (fun acc p => PyStr.replace (fst p) (snd p) acc) pairs s.

Definition get_escaped_value (record : PyRecord) (field : pystr) : pyval :=
  let field_value := getattr_or_false record field in
  if py_truthy field_value && isinstance_str field_value then
    match field_value with
    | PStr s =>
        let s := PyStr.strip s in
        PStr (replace_all (combine ESCAPE_CHARS REPLACE_CHARS) s)
    | _ => field_value
    end
  else field_value.

End Helpers.

(* ===================================================================== *)
(** ** Exceptions, results and the world *)
(* ===================================================================== *)

(** A raised exception: the classes it is an instance of (its own class
    first), and the two attributes the audit logger looks up on whatever
    object it is handed. *)
Record PyExc := {
  exc_mro : list pystr;
  exc_content : option pyval;
  exc_status_code : option pyval
}.

Definition isinstance_exc (e : PyExc) (cls : pystr) : bool :=
  existsb (pystr_eqb cls) (exc_mro e).

Definition plain_exc (mro : list pystr) : PyExc :=
  {| exc_mro := mro; exc_content := None; exc_status_code := None |}.

(** [requests.exceptions.HTTPError], as [raise_for_status] and the bare
    [raise requests.exceptions.HTTPError] build it: the instance carries
    [response] and [request], nothing named [content] or [status_code]. *)
Definition HTTPError : PyExc :=
  plain_exc [u "HTTPError"; u "RequestException"; u "OSError"; u "Exception"].

Definition AttributeError : PyExc :=
  plain_exc [u "AttributeError"; u "Exception"].

Definition TypeError : PyExc :=
  plain_exc [u "TypeError"; u "Exception"].

Definition UnicodeEncodeError : PyExc :=
  plain_exc [u "UnicodeEncodeError"; u "UnicodeError"; u "ValueError";
             u "Exception"].

Inductive result (A : Type) : Type :=
| Ok (a : A)
| Raise (e : PyExc).
Arguments Ok {A} a.
Arguments Raise {A} e.

Definition rbind {A B} (r : result A) (k : A -> result B) : result B :=
  match r with
  | Ok a => k a
  | Raise e => Raise e
  end.

Declare Scope result_scope.
Delimit Scope result_scope with res.
Notation "x <~ r ;; k" := (rbind r (fun x => k))
  (at level 100, r at next level, right associativity) : result_scope.

(** [requests.Response]: what the add-on reads of it. *)
Record Response := {
  status_code : Z;
  text : pystr;
  content : list N
}.

(** One call of [requests.get] / [requests.post]. *)
Record HttpRequest := {
  req_method : pystr;
  req_url : option pystr;
  req_params : option pyval;
  req_data : option pyval;
  req_headers : pyval;
  req_timeout : Z
}.

(** The [vals] handed to [webhook.logging].create. A Char or Text field
    that is not set reads [False]: [None] here. *)
Record LogEntry := {
  webhook_type : pystr;
  webhook : pystr;
  log_endpoint : option pystr;
  log_headers : option pystr;
  log_body : pystr;
  log_response : pystr;
  log_status : pyval
}.

(** The values of an evaluation context: recordsets, the [escape] helper
    put there for GraphQL templates, and everything else. *)
Inductive ctxval : Type :=
| CNone
| CRecords (rs : list PyRecord)
| CFun (f : PyRecord -> pystr -> pyval)
| COpaque (id : N).

Abbreviation Ctx := (gmap pystr ctxval).

(** What the add-on changes outside itself: the HTTP requests sent, the
    rows of [webhook.logging], the jobs queued with [with_delay], and the
    lines written to the module logger. *)
Record World := {
  sent : list HttpRequest;
  logs : list LogEntry;
  jobs : list (PyRecord * Z);
  diag : list pystr
}.

Definition M (A : Type) : Type := World -> result A * World.

Definition ret {A} (a : A) : M A := fun w => (Ok a, w).

Definition raise {A} (e : PyExc) : M A := fun w => (Raise e, w).

Definition bind {A B} (m : M A) (k : A -> M B) : M B :=
  fun w =>
    match m w with
    | (Ok a, w') => k a w'
    | (Raise e, w') => (Raise e, w')
    end.

Definition lift {A} (r : result A) : M A := fun w => (r, w).

Declare Scope webhook_scope.
Delimit Scope webhook_scope with M.
Notation "x <- m ;; k" := (bind m (fun x => k))
  (at level 100, m at next level, right associativity) : webhook_scope.
Notation "m ;;; k" := (bind m (fun _ => k))
  (at level 100, right associativity) : webhook_scope.

(** The [for] loop of a method body: the first exception leaves it. *)
Fixpoint for_each {A} (l : list A) (body : A -> M unit) : M unit :=
  match l with
  | [] => ret tt
  | a :: l' => bind (body a) (fun _ => for_each l' body)
  end.

(** Third-party code, as the add-on calls it. *)
Record Externals := {
  (** [Environment(loader=BaseLoader()).from_string(t)] rendered with the
      given namespace. *)
  jinja_render : option pystr -> Ctx -> result pystr;
  (** [requests.get] / [requests.post]; the answer may depend on the
      requests sent before. *)
  requests_send : HttpRequest -> list HttpRequest -> result Response;
  json_loads : pystr -> result pyval;
  json_dumps : pyval -> pystr;
  (** [dict(v)] for a [v] that is not a dict already. *)
  dict_of_iterable : pyval -> result (list (pyval * pyval));
  (** [ch.isprintable()] of the Unicode database, and [repr] of a float. *)
  isprintable : N -> bool;
  float_repr : spec_float -> pystr;
  safe_eval : pystr -> result pyval;
  ustr : pyval -> pystr;
  (** [self._get_eval_context(action=self)] *)
  _get_eval_context : Ctx
}.

(** [s.encode(encoding="utf-8")]; a lone surrogate cannot be encoded. *)
Definition utf8_encode_char (c : N) : option (list N) :=
  (if c <? 128 then Some [c]
   else if c <? 2048 then Some [192 + c / 64; 128 + c mod 64]
   else if (55296 <=? c) && (c <=? 57343) then None
   else if c <? 65536
        then Some [224 + c / 4096; 128 + (c / 64) mod 64; 128 + c mod 64]
        else Some [240 + c / 262144; 128 + (c / 4096) mod 64;
                   128 + (c / 64) mod 64; 128 + c mod 64])%N.

Fixpoint utf8_encode (s : pystr) : result (list N) :=
  match s with
  | [] => Ok []
  | c :: s' =>
      match utf8_encode_char c with
      | None => Raise UnicodeEncodeError
      | Some bs =>
          match utf8_encode s' with
          | Ok r => Ok (bs ++ r)
          | Raise e => Raise e
          end
      end
  end.

(* ===================================================================== *)
(** ** models/ir_action_server.py *)
(* ===================================================================== *)

Module IrServerAction.

Definition DEFAULT_GET_TIMEOUT : Z := 5.
Definition DEFAULT_POST_TIMEOUT : Z := 5.

(** One [ir.actions.server] row.  [name] and [type] come from the model
    the class inherits ([type] is a Char of Odoo's base action, distinct
    from [request_type]); [self_str] is [str(self)].  A Char, Text or
    Selection field that is not set reads [False], which is [None] here. *)
Record t := {
  name : option pystr;
  self_str : pystr;
  type : option pystr;
  endpoint : option pystr;
  headers : option pystr;
  body_template : option pystr;
  request_method : option pystr;
  request_type : option pystr;
  log_webhook_calls : bool;
  delay_execution : bool;
  delay : Z
}.

(** ["%s" % field] *)
Definition fmt_s (v : option pystr) : pystr :=
  match v with
  | Some s => s
  | None => u "False"
  end.

Definition field_eq (v : option pystr) (s : pystr) : bool :=
  match v with
  | Some s' => pystr_eqb s' s
  | None => false
  end.

(** [dict(v)] *)
Definition builtin_dict (X : Externals) (v : pyval)
  : result (list (pyval * pyval)) :=
  match v with
  | PDict d => Ok d
  | _ => dict_of_iterable X v
  end.

(** [str(v)] for a container: its [repr]. *)
Definition builtin_str (X : Externals) (v : pyval) : pystr :=
  PyRepr.repr (isprintable X) (float_repr X) v.

(** [response.raise_for_status()] *)
Definition raise_for_status (response : Response) : result unit :=
  if (400 <=? status_code response) && (status_code response <? 600)
  then Raise HTTPError
  else Ok tt.

Section Methods.

Context (X : Externals).

Local Open Scope result_scope.

Definition _get_webhook_headers (self : t) : result pystr :=
  match headers self with
  | Some ((_ :: _) as h) =>
      v <~ json_loads X (PyStr.strip h) ;;
      d <~ builtin_dict X v ;;
      Ok (builtin_str X (PDict d))
  | _ => Ok (builtin_str X (PDict []))
  end.

(** [dict(eval_context, record=record)] *)
Definition with_record (eval_context : Ctx) (record : PyRecord) : Ctx :=
  <[u "record" := CRecords [record]]> eval_context.

Definition _prepare_data_for_get (self : t) (record : PyRecord)
    (eval_context : Ctx) : result pyval :=
  data <~ jinja_render X (body_template self)
            (with_record eval_context record) ;;
  b <~ utf8_encode data ;;
  Ok (PBytes b).

Definition _prepare_data_for_post_request (self : t) (record : PyRecord)
    (eval_context : Ctx) : result pyval :=
  data <~ jinja_render X (body_template self)
            (with_record eval_context record) ;;
  b <~ utf8_encode data ;;
  Ok (PBytes b).

Definition _prepare_data_for_post_graphql (self : t) (record : PyRecord)
    (eval_context : Ctx) : result pyval :=
  query <~ jinja_render X (body_template self)
             (<[u "escape" := CFun Helpers.get_escaped_value]>
                (with_record eval_context record)) ;;
  let payload :=
    json_dumps X (PDict [(PStr (u "query"), PStr query);
                         (PStr (u "variables"), PDict [])]) in
  Ok (PStr payload).

(** The methods of the class whose name starts with
    [_prepare_data_for_post_]: what [hasattr] and [getattr] find. *)
Definition prepare_methods
  : list (pystr * (t -> PyRecord -> Ctx -> result pyval)) :=
  [(u "_prepare_data_for_post_request", _prepare_data_for_post_request);
   (u "_prepare_data_for_post_graphql", _prepare_data_for_post_graphql)].

Definition hasattr_prepare (prepare_method : pystr) : bool :=
  existsb (fun m => pystr_eqb (fst m) prepare_method) prepare_methods.

Definition getattr_prepare (prepare_method : pystr)
  : result (t -> PyRecord -> Ctx -> result pyval) :=
  match find (fun m => pystr_eqb (fst m) prepare_method) prepare_methods with
  | Some m => Ok (snd m)
  | None => Raise AttributeError
  end.

(** Lines 142-146 of [_execute_webhook_post_request]: the choice of the
    body builder and its call. *)
Definition post_payload (self : t) (record : PyRecord) (eval_context : Ctx)
  : result pyval :=
  let prepare_method :=
    u "_prepare_data_for_post_" ++ fmt_s (request_type self) in
  let prepare_method :=
    if negb (hasattr_prepare prepare_method)
    then u "_prepare_data_for_post_request"
    else prepare_method in
  f <~ getattr_prepare prepare_method ;;
  f self record eval_context.

(** [safe_eval(self._get_webhook_headers())] *)
Definition eval_headers (self : t) : result pyval :=
  s <~ _get_webhook_headers self ;;
  safe_eval X s.

Local Close Scope result_scope.
Local Open Scope webhook_scope.

(** The call of [requests]; the request is on the wire (and in [sent])
    whether or not an answer comes back. *)
Definition requests_call (req : HttpRequest) : M Response :=
  fun w =>
    (requests_send X req (sent w),
     {| sent := sent w ++ [req]; logs := logs w; jobs := jobs w;
        diag := diag w |}).

Definition requests_get (url : option pystr) (params headers : pyval)
    (timeout : Z) : M Response :=
  requests_call {| req_method := u "GET"; req_url := url;
                   req_params := Some params; req_data := None;
                   req_headers := headers; req_timeout := timeout |}.

Definition requests_post (url : option pystr) (data headers : pyval)
    (timeout : Z) : M Response :=
  requests_call {| req_method := u "POST"; req_url := url;
                   req_params := None; req_data := Some data;
                   req_headers := headers; req_timeout := timeout |}.

Definition _execute_webhook_get_request (self : t) (record : PyRecord)
    (eval_context : Ctx) : M (Response * pyval) :=
  let endpoint := endpoint self in
  headers <- lift (eval_headers self) ;;
  params <- lift (_prepare_data_for_get self record eval_context) ;;
  response <- requests_get endpoint
                (if py_truthy params then params else PDict [])
                headers DEFAULT_GET_TIMEOUT ;;
  ret (response, params).

Definition _execute_webhook_post_request (self : t) (record : PyRecord)
    (eval_context : Ctx) : M (Response * pyval) :=
  let endpoint := endpoint self in
  headers <- lift (eval_headers self) ;;
  payload <- lift (post_payload self record eval_context) ;;
  response <- requests_post endpoint payload headers DEFAULT_POST_TIMEOUT ;;
  ret (response, payload).

(** The scan of [response_data["data"]]: every value that is a dict is
    searched for the key [statusCode]; a hit overwrites [status_code]. *)
Definition scan_value (status_code : pyval) (value : pyval) : pyval :=
  match value with
  | PDict items =>
      fold_left
        (fun status_code kv =>
           if is_key (u "statusCode") kv then snd kv else status_code)
        items status_code
  | _ => status_code
  end.

Definition scan_data (status_code : pyval) (data : list (pyval * pyval))
  : pyval :=
  fold_left (fun status_code kv => scan_value status_code (snd kv))
            data status_code.

(** [response_data.get("data")]: only a dict has [get]. *)
Definition get_data (response_data : pyval) : result pyval :=
  match response_data with
  | PDict d => Ok (dict_get d (u "data"))
  | _ => Raise AttributeError
  end.

Definition _get_body_status_code (self : t) (response : Response)
  : result pyval :=
  let status_code := PInt (status_code response) in
  if field_eq (type self) (u "graphql") then
    (response_data <~
       (if py_truthy (PStr (text response))
        then json_loads X (text response)
        else Ok PFalse) ;;
     if py_truthy response_data then
       (data <~ get_data response_data ;;
        if py_truthy data && isinstance_dict data then
          match data with
          | PDict d => Ok (scan_data status_code d)
          | _ => Ok status_code
          end
        else Ok status_code)
     else Ok status_code)%res
  else Ok status_code.

(** [self.env["webhook.logging"].create(vals)] *)
Definition create (vals : LogEntry) : M unit :=
  fun w =>
    (Ok tt,
     {| sent := sent w; logs := logs w ++ [vals]; jobs := jobs w;
        diag := diag w |}).

(** [response.content] on whatever the logger was handed. *)
Definition getattr_content (response : Response + PyExc) : result pyval :=
  match response with
  | inl r => Ok (PBytes (content r))
  | inr e =>
      match exc_content e with
      | Some c => Ok c
      | None => Raise AttributeError
      end
  end.

(** [getattr(response, "status_code", None)] *)
Definition getattr_status_code (response : Response + PyExc) : pyval :=
  match response with
  | inl r => PInt (status_code r)
  | inr e =>
      match exc_status_code e with
      | Some c => c
      | None => PNone
      end
  end.

Definition _webhook_logging (self : t) (body : pyval)
    (response : Response + PyExc) : M unit :=
  if log_webhook_calls self then
    c <- lift (getattr_content response) ;;
    let vals :=
      {| webhook_type := u "outgoing";
         webhook := fmt_s (name self) ++ u " (" ++ self_str self ++ u ")";
         log_endpoint := endpoint self;
         log_headers := headers self;
         log_body := ustr X body;
         log_response := ustr X c;
         log_status := getattr_status_code response |} in
    create vals
  else ret tt.

(** [_logger.error(msg, exc_info=True)] *)
Definition _logger_error (msg : pystr) : M unit :=
  fun w =>
    (Ok tt,
     {| sent := sent w; logs := logs w; jobs := jobs w;
        diag := diag w ++ [msg] |}).

Definition _handle_exception (self : t) (response : option Response)
    (exception : PyExc) (body : pyval) : M unit :=
  (if isinstance_exc exception (u "HTTPError") then
     _logger_error (u "HTTPError during request")
   else if isinstance_exc exception (u "ConnectionError") then
     _logger_error (u "Error Connecting during request")
   else if isinstance_exc exception (u "Timeout") then
     _logger_error (u "Connection Timeout")
   else if isinstance_exc exception (u "RequestException") then
     _logger_error (u "Something wrong happened during request")
   else
     _logger_error
       (u "Internal exception happened during sending webhook request")) ;;;
  _webhook_logging self body (inr exception).

(** The methods named [_execute_webhook_<method>_request]. *)
Definition execute_methods
  : list (pystr * (t -> PyRecord -> Ctx -> M (Response * pyval))) :=
  [(u "_execute_webhook_get_request", _execute_webhook_get_request);
   (u "_execute_webhook_post_request", _execute_webhook_post_request)].

Definition getattr_execute (func : pystr)
  : result (t -> PyRecord -> Ctx -> M (Response * pyval)) :=
  match find (fun m => pystr_eqb (fst m) func) execute_methods with
  | Some m => Ok (snd m)
  | None => Raise AttributeError
  end.

(** How the [try] block of [_execute_webhook] ends: it runs to its end
    (the [else] clause is next), or an exception reaches the [except]
    clause, with the values [response] and [body] have at that point. *)
Inductive TryEnd : Type :=
| Completed (response : Response) (body : pyval)
| Excepted (response : option Response) (body : pyval) (e : PyExc).

Definition try_block (self : t) (record : PyRecord) (eval_context : Ctx)
  : World -> TryEnd * World :=
  fun w =>
    match getattr_execute
            (u "_execute_webhook_" ++ fmt_s (request_method self)
               ++ u "_request") with
    | Raise e => (Excepted None PNone e, w)
    | Ok func =>
        match func self record eval_context w with
        | (Raise e, w') => (Excepted None PNone e, w')
        | (Ok (response, body), w') =>
            match raise_for_status response with
            | Raise e => (Excepted (Some response) body e, w')
            | Ok _ =>
                match _get_body_status_code self response with
                | Raise e => (Excepted (Some response) body e, w')
                | Ok status_code =>
                    if negb (py_eq_int status_code 200)
                    then (Excepted (Some response) body HTTPError, w')
                    else (Completed response body, w')
                end
            end
        end
    end.

(** The [if eval_context is None] of [_execute_webhook]. *)
Definition default_eval_context (record : PyRecord)
    (eval_context : option Ctx) : Ctx :=
  match eval_context with
  | None =>
      <[u "records" := CRecords [record]]>
        (with_record (_get_eval_context X) record)
  | Some c => c
  end.

Definition _execute_webhook (self : t) (record : PyRecord)
    (eval_context : option Ctx) : M unit :=
  let eval_context := default_eval_context record eval_context in
  fun w =>
    match try_block self record eval_context w with
    | (Excepted response body e, w') =>
        _handle_exception self response e body w'
    | (Completed response body, w') =>
        _webhook_logging self body (inl response) w'
    end.

(** [self.with_delay(eta=self.delay)._execute_webhook(record, None)]:
    the call is handed to the job queue and does not run here. *)
Definition with_delay_execute_webhook (self : t) (record : PyRecord)
  : M unit :=
  fun w =>
    (Ok tt,
     {| sent := sent w; logs := logs w;
        jobs := jobs w ++ [(record, delay self)]; diag := diag w |}).

(** [eval_context.get("records", self.model_id.browse())], ready for the
    [for] loop: a recordset yields its records, no entry gives the empty
    recordset, anything else is not iterable. *)
Definition iter_records (eval_context : Ctx) : result (list PyRecord) :=
  match eval_context !! u "records" with
  | None => Ok []
  | Some (CRecords rs) => Ok rs
  | Some _ => Raise TypeError
  end.

Definition _run_action_custom_webhook_multi (self : t) (eval_context : Ctx)
  : M ctxval :=
  records <- lift (iter_records eval_context) ;;
  for_each records
    (fun record =>
       if delay_execution self
       then with_delay_execute_webhook self record
       else _execute_webhook self record (Some eval_context)) ;;;
  ret (match eval_context !! u "action" with
       | Some a => a
       | None => CNone
       end).

End Methods.

End IrServerAction.

(* ===================================================================== *)
(** ** The escape helper: what the replacement passes compute *)
(* ===================================================================== *)

Module EscapeSpec.

Import Helpers.

(** The escape table read as one substitution per character: the
    two-character sequence of a character of [ESCAPE_CHARS], the
    character itself otherwise (a backslash included). *)
Definition escape_char (c : N) : pystr :=
  (if c =? 34 then [92; 34]
   else if c =? 10 then [92; 110]
   else if c =? 13 then [92; 114]
   else if c =? 9 then [92; 116]
   else if c =? 8 then [92; 98]
   else if c =? 12 then [92; 102]
   else [c])%N.

Definition escape_chars (s : pystr) : pystr := flat_map escape_char s.

Definition all_space (s : pystr) : Prop :=
  Forall (fun c => PyStr.isspace c = true) s.

Definition no_space_at_ends (s : pystr) : Prop :=
  (forall c s', s = c :: s' -> PyStr.isspace c = false) /\
  (forall c s', s = s' ++ [c] -> PyStr.isspace c = false).

(** [t] is [s] without its leading and trailing white space. *)
Definition trimmed (s t : pystr) : Prop :=
  (exists l r, s = l ++ t ++ r /\ all_space l /\ all_space r) /\
  no_space_at_ends t.

(** The value of the worked example: [He said "hi"], with the double
    quotes as characters of the value. *)
Definition he_said_hi : pystr := u "He said " ++ [34%N] ++ u "hi" ++ [34%N].

(** The same text with each quote escaped: backslash, quote. *)
Definition he_said_hi_escaped : pystr :=
  u "He said " ++ [92%N; 34%N] ++ u "hi" ++ [92%N; 34%N].

(** A record with the one field [note]. *)
Definition note_record (v : pyval) : PyRecord := {[ u "note" := v ]}.

End EscapeSpec.

(* ===================================================================== *)
(** ** The escape helper: what its result looks like *)
(* ===================================================================== *)

Module EscapeProps.

Import Helpers.

(** A character of [ESCAPE_CHARS]. *)
Definition is_escape_char (c : N) : bool :=
  existsb (pystr_eqb [c]) ESCAPE_CHARS.

(** The five control characters of [ESCAPE_CHARS]: newline, carriage
    return, tab, backspace, form feed. *)
Definition is_escaped_control (c : N) : bool :=
  ((c =? 10) || (c =? 13) || (c =? 9) || (c =? 8) || (c =? 12))%N.

(** Every double quote of [r] has a backslash right before it. *)
Definition quotes_escaped (r : pystr) : Prop :=
  forall pre post, r = pre ++ 34%N :: post -> exists pre', pre = pre' ++ [92%N].

(** The number of characters of [s] that the helper replaces. *)
Definition escape_count (s : pystr) : nat :=
  length (List.filter is_escape_char s).

End EscapeProps.


(* ===================================================================== *)
(** ** The states of an attempt *)
(* ===================================================================== *)

Module Attempt.

Import IrServerAction.

(** The two terminal states of the outcome handler: [Succeeded] when the
    [try] block of [_execute_webhook] runs to its end, [Failed] when an
    exception reaches its [except] clause. *)
Inductive state : Type := Succeeded | Failed.

Definition state_of (e : TryEnd) : state :=
  match e with
  | Completed _ _ => Succeeded
  | Excepted _ _ _ => Failed
  end.

Definition final_state (X : Externals) (self : t) (record : PyRecord)
    (eval_context : option Ctx) (w : World) : state :=
  state_of
    (fst (try_block X self record
            (default_eval_context X record eval_context) w)).

(** The audit entry the logger builds from [body], the [content] [c] of
    what it was handed, and the status it found there. *)
Definition entry_of (X : Externals) (self : t) (body c status : pyval)
  : LogEntry :=
  {| webhook_type := u "outgoing";
     webhook := fmt_s (name self) ++ u " (" ++ self_str self ++ u ")";
     log_endpoint := endpoint self;
     log_headers := headers self;
     log_body := ustr X body;
     log_response := ustr X c;
     log_status := status |}.

(** The name looked up for the request method of the action. *)
Definition execute_name (self : t) : pystr :=
  u "_execute_webhook_" ++ fmt_s (request_method self) ++ u "_request".

(** Odoo's [safe_eval] gives a dict display of string literals the value
    Python gives it. *)
Definition evaluates_literals (X : Externals) : Prop :=
  forall s d, PyLiteral.eval_str_dict s = Some d ->
              safe_eval X s = Ok (PDict (PyLiteral.str_items d)).

(** The Unicode database calls no surrogate printable. *)
Definition unicode_database (X : Externals) : Prop :=
  forall c, isprintable X c = true -> PyLiteral.is_surrogate c = false.

(** The action with another request type. *)
Definition with_request_type (self : t) (rt : option pystr) : t :=
  {| name := name self; self_str := self_str self; type := type self;
     endpoint := endpoint self; headers := headers self;
     body_template := body_template self;
     request_method := request_method self; request_type := rt;
     log_webhook_calls := log_webhook_calls self;
     delay_execution := delay_execution self; delay := delay self |}.

End Attempt.

(* ===================================================================== *)
(** ** JSON texts of the worked scenarios *)
(* ===================================================================== *)

(** [json.loads] on the JSON texts the scenarios use: objects, arrays,
    strings without escape sequences, integers, [true], [false], [null]
    (a text outside this fragment is refused here), and [json.dumps] on
    the values they build. *)
Module MiniJson.

Definition JSONDecodeError : PyExc :=
  plain_exc [u "JSONDecodeError"; u "ValueError"; u "Exception"].

Definition is_ws (c : N) : bool :=
  ((c =? 32) || (c =? 9) || (c =? 10) || (c =? 13))%N.

Fixpoint skip_ws (s : pystr) : pystr :=
  match s with
  | c :: s' => if is_ws c then skip_ws s' else s
  | [] => []
  end.

Definition is_digit (c : N) : bool := ((48 <=? c) && (c <=? 57))%N.

(** The characters of a string up to its closing quote. *)
Fixpoint string_body (s : pystr) : option (pystr * pystr) :=
  match s with
  | [] => None
  | c :: s' =>
      if (c =? 34)%N then Some ([], s')
      else if ((c =? 92) || (c <? 32))%N then None
      else
        match string_body s' with
        | Some (t, rest) => Some (c :: t, rest)
        | None => None
        end
  end.

Fixpoint digits (acc : Z) (s : pystr) : Z * pystr :=
  match s with
  | c :: s' =>
      if is_digit c then digits (10 * acc + Z.of_N (c - 48)) s'
      else (acc, s)
  | [] => (acc, [])
  end.

(** An integer: no leading zero, no fraction, no exponent. *)
Definition number (s : pystr) : option (Z * pystr) :=
  let '(neg, s1) :=
    match s with
    | 45%N :: s' => (true, s')
    | _ => (false, s)
    end in
  match s1 with
  | c :: s2 =>
      if is_digit c then
        let '(n, rest) := digits 0 s1 in
        let leading_zero :=
          (c =? 48)%N && match s2 with d :: _ => is_digit d | [] => false end in
        let more :=
          match rest with
          | d :: _ => ((d =? 46) || (d =? 101) || (d =? 69))%N
          | [] => false
          end in
        if leading_zero || more then None
        else Some (if neg then - n else n, rest)
      else None
  | [] => None
  end.

(** [d[k] = v] *)
Fixpoint setitem (d : list (pyval * pyval)) (k : pystr) (v : pyval)
  : list (pyval * pyval) :=
  match d with
  | [] => [(PStr k, v)]
  | kv :: d' =>
      if is_key k kv then (fst kv, v) :: d' else kv :: setitem d' k v
  end.

Fixpoint value (fuel : nat) (s : pystr) : option (pyval * pystr) :=
  match fuel with
  | O => None
  | S fuel' =>
      match skip_ws s with
      | 123%N :: s1 =>
          match skip_ws s1 with
          | 125%N :: rest => Some (PDict [], rest)
          | _ => members fuel' [] s1
          end
      | 91%N :: s1 =>
          match skip_ws s1 with
          | 93%N :: rest => Some (PList [], rest)
          | _ => elements fuel' [] s1
          end
      | 34%N :: s1 =>
          match string_body s1 with
          | Some (t, rest) => Some (PStr t, rest)
          | None => None
          end
      | 116%N :: 114%N :: 117%N :: 101%N :: rest => Some (PBool true, rest)
      | 102%N :: 97%N :: 108%N :: 115%N :: 101%N :: rest =>
          Some (PBool false, rest)
      | 110%N :: 117%N :: 108%N :: 108%N :: rest => Some (PNone, rest)
      | s1 =>
          match number s1 with
          | Some (n, rest) => Some (PInt n, rest)
          | None => None
          end
      end
  end
with members (fuel : nat) (acc : list (pyval * pyval)) (s : pystr)
  : option (pyval * pystr) :=
  match fuel with
  | O => None
  | S fuel' =>
      match skip_ws s with
      | 34%N :: s1 =>
          match string_body s1 with
          | Some (k, s2) =>
              match skip_ws s2 with
              | 58%N :: s3 =>
                  match value fuel' s3 with
                  | Some (v, s4) =>
                      let acc := setitem acc k v in
                      match skip_ws s4 with
                      | 125%N :: rest => Some (PDict acc, rest)
                      | 44%N :: s5 => members fuel' acc s5
                      | _ => None
                      end
                  | None => None
                  end
              | _ => None
              end
          | None => None
          end
      | _ => None
      end
  end
with elements (fuel : nat) (acc : list pyval) (s : pystr)
  : option (pyval * pystr) :=
  match fuel with
  | O => None
  | S fuel' =>
      match value fuel' s with
      | Some (v, s1) =>
          match skip_ws s1 with
          | 93%N :: rest => Some (PList (acc ++ [v]), rest)
          | 44%N :: s2 => elements fuel' (acc ++ [v]) s2
          | _ => None
          end
      | None => None
      end
  end.

(** [json.dumps]: ASCII output, [", "] and [": "] as separators. *)
Definition dumps_char (c : N) : pystr :=
  (if c =? 34 then [92; 34]
   else if c =? 92 then [92; 92]
   else if c =? 10 then [92; 110]
   else if c =? 13 then [92; 114]
   else if c =? 9 then [92; 116]
   else if c =? 8 then [92; 98]
   else if c =? 12 then [92; 102]
   else if (32 <=? c) && (c <=? 126) then [c]
   else if c <? 65536 then 92 :: 117 :: PyRepr.hex4 c
   else 92 :: 117 :: PyRepr.hex4 (55296 + (c - 65536) / 1024)
          ++ 92 :: 117 :: PyRepr.hex4 (56320 + (c - 65536) mod 1024))%N.

Definition dumps_str (s : pystr) : pystr :=
  [34%N] ++ flat_map dumps_char s ++ [34%N].

Fixpoint dumps (v : pyval) : pystr :=
  match v with
  | PNone => u "null"
  | PBool b => if b then u "true" else u "false"
  | PInt z => PyRepr.repr_int z
  | PFloat _ => u "NaN"
  | PStr s => dumps_str s
  | PBytes b => dumps_str b
  | PList l => [91%N] ++ PyRepr.join (u ", ") (map dumps l) ++ [93%N]
  | PDict d =>
      [123%N]
        ++ PyRepr.join (u ", ")
             (map (fun kv =>
                     match kv with
                     | (k, x) =>
                         match k with
                         | PStr s => dumps_str s
                         | _ => dumps_str (dumps k)
                         end ++ u ": " ++ dumps x
                     end) d)
        ++ [125%N]
  end.

Definition loads (s : pystr) : result pyval :=
  match value (2 * length s + 2) s with
  | Some (v, rest) =>
      match skip_ws rest with
      | [] => Ok v
      | _ => Raise JSONDecodeError
      end
  | None => Raise JSONDecodeError
  end.

End MiniJson.

(* ===================================================================== *)
(** ** Worked scenarios *)
(* ===================================================================== *)

(** A closed world to run the add-on in: templates without markup (jinja
    renders them to themselves), ASCII payloads, and an endpoint whose
    behaviour is the parameter. *)
Module Scenario.

Import IrServerAction.

(** A text written with single quotes in place of double quotes, and a
    backquote in place of a single quote. *)
Definition dq (s : string) : pystr :=
  map (fun c => if (c =? 39)%N then 34%N
                else if (c =? 96)%N then 39%N else c) (u s).

Definition ConnectionError : PyExc :=
  plain_exc [u "ConnectionError"; u "RequestException"; u "OSError";
             u "Exception"].

Definition SyntaxError : PyExc :=
  plain_exc [u "SyntaxError"; u "Exception"].

Definition latin1_printable (c : N) : bool :=
  ((161 <=? c) && (c <=? 255) && negb (c =? 173))%N.

Definition ascii_repr (v : pyval) : pystr :=
  PyRepr.repr latin1_printable (fun _ => u "nan") v.

Definition ascii_ustr (v : pyval) : pystr :=
  match v with
  | PStr s => s
  | PBytes b => b
  | _ => ascii_repr v
  end.

Definition externals
    (answer : HttpRequest -> list HttpRequest -> result Response)
  : Externals :=
  {| jinja_render := fun template _ =>
       match template with
       | Some s => Ok s
       | None => Raise TypeError
       end;
     requests_send := answer;
     json_loads := MiniJson.loads;
     json_dumps := MiniJson.dumps;
     dict_of_iterable := fun v =>
       match v with
       | PList [] | PStr [] => Ok []
       | _ => Raise TypeError
       end;
     isprintable := latin1_printable;
     float_repr := fun _ => u "nan";
     safe_eval := fun s =>
       match PyLiteral.eval_str_dict s with
       | Some d => Ok (PDict (PyLiteral.str_items d))
       | None => Raise SyntaxError
       end;
     ustr := ascii_ustr;
     _get_eval_context := ∅ |}.

(** The endpoint cannot be reached. *)
Definition unreachable : HttpRequest -> list HttpRequest -> result Response :=
  fun _ _ => Raise ConnectionError.

(** The endpoint answers every request with [code] and [body]. *)
Definition answers (code : Z) (body : pystr)
  : HttpRequest -> list HttpRequest -> result Response :=
  fun _ _ => Ok {| status_code := code; text := body; content := body |}.

Definition w0 : World := {| sent := []; logs := []; jobs := []; diag := [] |}.

(** A POST action; [type] is what Odoo stores there for a server action
    unless stated otherwise. *)
Definition action (request_type type : pystr) (log : bool) : t :=
  {| name := Some (u "Notify");
     self_str := u "ir.actions.server(7,)";
     type := Some type;
     endpoint := Some (u "https://example.org/hook");
     headers := Some (u "{}");
     body_template := Some (u "ping");
     request_method := Some (u "post");
     request_type := Some request_type;
     log_webhook_calls := log;
     delay_execution := false;
     delay := 0 |}.

Definition partner (n : string) : PyRecord := {[ u "name" := PStr (u n) ]}.

Definition batch (rs : list PyRecord) : Ctx := {[ u "records" := CRecords rs ]}.

(** A GraphQL answer that reports a failure inside a 200 response. *)
Definition not_found_body : pystr := dq "{'data': {'x': {'statusCode': 404}}}".

(** A GraphQL answer that reports success inside the body. *)
Definition ok_body : pystr := dq "{'data': {'x': {'statusCode': 200}}}".

(** Several objects under [data], two of them with a [statusCode]. *)
Definition mixed_body : pystr :=
  dq "{'data': {'a': {'statusCode': 500}, 'b': {'statusCode': 200}, 'c': {'n': 1}}}".

Definition response_of (code : Z) (body : pystr) : Response :=
  {| status_code := code; text := body; content := body |}.

(** The endpoint fails with an exception object that has a [content]
    attribute of its own. *)
Definition GatewayError : PyExc :=
  {| exc_mro := [u "GatewayError"; u "Exception"];
     exc_content := Some (PBytes (u "gateway down"));
     exc_status_code := None |}.

Definition gateway_down : HttpRequest -> list HttpRequest -> result Response :=
  fun _ _ => Raise GatewayError.

(** The action with other stored headers. *)
Definition with_headers (self : t) (h : option pystr) : t :=
  {| name := name self; self_str := self_str self; type := type self;
     endpoint := endpoint self; headers := h;
     body_template := body_template self;
     request_method := request_method self;
     request_type := request_type self;
     log_webhook_calls := log_webhook_calls self;
     delay_execution := delay_execution self; delay := delay self |}.

(** Stored headers, with white space around, and the dict they denote. *)
Definition token_headers : pystr :=
  dq "  {'X-Token': 'it`s', 'Accept': 'text/plain'} ".

Definition token_dict : list (pystr * pystr) :=
  [(u "X-Token", u "it's"); (u "Accept", u "text/plain")].

End Scenario.

(* ===================================================================== *)
(** ** What a run leaves in the world *)
(* ===================================================================== *)

Module Effects.

Import IrServerAction Attempt.

(** [eval_context.get("action")] *)
Definition context_action (eval_context : Ctx) : ctxval :=
  match eval_context !! u "action" with
  | Some a => a
  | None => CNone
  end.

(** The jobs a delayed batch hands to the queue: one per record, in the
    order of the records, each with the delay of the action. *)
Definition queued (self : t) (records : list PyRecord)
  : list (PyRecord * Z) :=
  map (fun record => (record, delay self)) records.

(** [w'] is [w] with at most [n] more requests, audit entries, jobs and
    diagnostic lines, added at the end: nothing recorded is changed or
    removed. *)
Definition grows (n : nat) (w w' : World) : Prop :=
  exists ss ls js ds,
    sent w' = sent w ++ ss /\ logs w' = logs w ++ ls /\
    jobs w' = jobs w ++ js /\ diag w' = diag w ++ ds /\
    (length ss <= n)%nat /\ (length ls <= n)%nat /\
    (length js <= n)%nat /\ (length ds <= n)%nat.

(** No object under [data] has the key [statusCode]. *)
Definition no_status_code (entries : list (pyval * pyval)) : Prop :=
  Forall (fun kv =>
            forall items, snd kv = PDict items ->
                          existsb (is_key (u "statusCode")) items = false)
         entries.

(** A lone surrogate: a code point that UTF-8 does not encode. *)
Definition is_surrogate (c : N) : bool := ((55296 <=? c) && (c <=? 57343))%N.

(** An action like those of [Scenario], with every field that matters to
    a request as a parameter. *)
Definition custom_action
    (method request_type headers template : option pystr)
    (log delayed : bool) : t :=
  {| name := Some (u "Notify");
     self_str := u "ir.actions.server(7,)";
     type := Some (u "ir.actions.server");
     endpoint := Some (u "https://example.org/hook");
     headers := headers;
     body_template := template;
     request_method := method;
     request_type := request_type;
     log_webhook_calls := log;
     delay_execution := delayed;
     delay := 30 |}.

End Effects.

(** Inputs of further worked scenarios. *)
Module Cases.

Import IrServerAction Effects Scenario.

(** Stored headers that are not JSON, and headers of white space only. *)
Definition broken_headers : pystr := u "{oops".
Definition blank_headers : pystr := [32%N; 9%N; 10%N].

(** A rendered text with one, two, three and four byte characters. *)
Definition mixed_text : pystr := [97%N; 233%N; 8364%N; 128512%N].

(** A rendered text with a lone surrogate. *)
Definition surrogate_text : pystr := [97%N; 55296%N].

(** Bodies for the classifier. *)
Definition null_body : pystr := u "null".
Definition array_body : pystr := u "[1]".
Definition misplaced_body : pystr :=
  dq "{'data': {'statusCode': 404, 'x': {'deep': {'statusCode': 500}}}}".

(** A context with records and an opaque [action]. *)
Definition batch_with_action (rs : list PyRecord) : Ctx :=
  <[u "action" := COpaque 5]> (batch rs).


Definition post_action (log : bool) : t :=
  custom_action (Some (u "post")) (Some (u "request")) (Some (u "{}"))
    (Some (u "ping")) log false.

Definition get_action (template : pystr) (log : bool) : t :=
  custom_action (Some (u "get")) (Some (u "request")) (Some (u "{}"))
    (Some template) log false.

Definition graphql_action : t :=
  custom_action (Some (u "post")) (Some (u "graphql")) (Some (u "{}"))
    (Some (u "query { ping }")) true false.

Definition delayed_action : t :=
  custom_action (Some (u "post")) (Some (u "request")) (Some (u "{}"))
    (Some (u "ping")) true true.

End Cases.

(* ===================================================================== *)
(** ** Theorems: the escape helper *)
(* ===================================================================== *)

Module EscapeFacts.

Import Helpers EscapeSpec.

Lemma lstrip_split (s : pystr) :
  exists l, s = l ++ PyStr.lstrip s /\ all_space l /\
            forall c s', PyStr.lstrip s = c :: s' -> PyStr.isspace c = false.
Proof.
  induction s as [|c s IH].
  - exists []. repeat split; [constructor | discriminate].
  - simpl. destruct (PyStr.isspace c) eqn:Hc.
    + destruct IH as (l & Hs & Hl & Hhd).
      exists (c :: l). repeat split.
      * simpl. now rewrite <- Hs.
      * constructor; assumption.
      * exact Hhd.
    + exists []. repeat split; [constructor |].
      intros c' s' Heq. injection Heq as -> _. exact Hc.
Qed.

Lemma all_space_rev (l : pystr) : all_space l -> all_space (rev l).
Proof.
  unfold all_space. rewrite !Forall_forall.
  intros H x Hx. apply H. rewrite list_elem_of_In in *.
  now apply in_rev.
Qed.

Lemma rstrip_split (s : pystr) :
  exists r, s = PyStr.rstrip s ++ r /\ all_space r /\
            forall c s', PyStr.rstrip s = s' ++ [c] ->
                         PyStr.isspace c = false.
Proof.
  unfold PyStr.rstrip.
  destruct (lstrip_split (rev s)) as (l & Hs & Hl & Hhd).
  exists (rev l). repeat split.
  - rewrite <- rev_app_distr, <- Hs. symmetry. apply rev_involutive.
  - now apply all_space_rev.
  - intros c s' Heq. apply (Hhd c (rev s')).
    apply (f_equal (@rev N)) in Heq.
    rewrite rev_involutive, rev_app_distr in Heq. exact Heq.
Qed.

Lemma lstrip_head_rstrip (s : pystr) :
  (forall c s', s = c :: s' -> PyStr.isspace c = false) ->
  forall c s', PyStr.rstrip s = c :: s' -> PyStr.isspace c = false.
Proof.
  intros Hhd c s' Heq.
  destruct (rstrip_split s) as (r & Hs & _ & _).
  rewrite Heq in Hs. simpl in Hs. exact (Hhd c _ Hs).
Qed.

Lemma strip_trimmed (s : pystr) : trimmed s (PyStr.strip s).
Proof.
  unfold trimmed, PyStr.strip.
  destruct (lstrip_split s) as (l & Hs & Hl & Hhd).
  destruct (rstrip_split (PyStr.lstrip s)) as (r & Hr & Hrs & Hlast).
  split.
  - exists l, r. repeat split; try assumption.
    now rewrite <- Hr.
  - split.
    + now apply lstrip_head_rstrip.
    + exact Hlast.
Qed.

(** A pass of [replace] for a one-character [old] is a substitution
    character by character. *)
Lemma replace_one_char (c : N) (new s : pystr) :
  PyStr.replace [c] new s =
  flat_map (fun x => if (c =? x)%N then new else [x]) s.
Proof.
  unfold PyStr.replace.
  induction s as [|x s IH]; [reflexivity|].
  simpl. destruct (c =? x)%N; simpl; now rewrite IH.
Qed.

Lemma flat_map_flat_map {A B C} (f : A -> list B) (g : B -> list C)
    (l : list A) :
  flat_map g (flat_map f l) = flat_map (fun x => flat_map g (f x)) l.
Proof.
  induction l as [|a l IH]; [reflexivity|].
  simpl. now rewrite flat_map_app, IH.
Qed.

Lemma flat_map_pointwise {A B} (f g : A -> list B) (l : list A) :
  (forall a, f a = g a) -> flat_map f l = flat_map g l.
Proof.
  intros H. induction l as [|a l IH]; [reflexivity|].
  simpl. now rewrite H, IH.
Qed.

Lemma pass_other_char (k x : N) (new : pystr) :
  k <> x -> flat_map (fun y => if (k =? y)%N then new else [y]) [x] = [x].
Proof.
  intros H. cbn [flat_map].
  destruct (N.eqb_spec k x); [contradiction | reflexivity].
Qed.

(** The six passes, one after the other, on one character. *)
Lemma passes_on_char (c : N) :
  replace_all (combine ESCAPE_CHARS REPLACE_CHARS) [c] = escape_char c.
Proof.
  unfold replace_all, escape_char.
  cbn [combine fold_left fst snd ESCAPE_CHARS REPLACE_CHARS].
  rewrite !replace_one_char.
  destruct (N.eqb_spec c 34) as [->|H1]; [reflexivity|].
  destruct (N.eqb_spec c 10) as [->|H2]; [reflexivity|].
  destruct (N.eqb_spec c 13) as [->|H3]; [reflexivity|].
  destruct (N.eqb_spec c 9) as [->|H4]; [reflexivity|].
  destruct (N.eqb_spec c 8) as [->|H5]; [reflexivity|].
  destruct (N.eqb_spec c 12) as [->|H6]; [reflexivity|].
  repeat rewrite pass_other_char
    by (intro E; symmetry in E; contradiction).
  reflexivity.
Qed.

Lemma replace_all_app (pairs : list (pystr * pystr)) (a b : pystr) :
  Forall (fun p => exists c, fst p = [c]) pairs ->
  replace_all pairs (a ++ b) = replace_all pairs a ++ replace_all pairs b.
Proof.
  unfold replace_all. intros H. revert a b.
  induction H as [|[old new] pairs [c Hc] _ IH]; intros a b; [reflexivity|].
  simpl in *. subst old.
  rewrite !replace_one_char, flat_map_app. apply IH.
Qed.

Lemma escape_pairs_one_char :
  Forall (fun p : pystr * pystr => exists c, fst p = [c])
         (combine ESCAPE_CHARS REPLACE_CHARS).
Proof. repeat constructor; eexists; reflexivity. Qed.

Lemma replace_all_nil (pairs : list (pystr * pystr)) :
  Forall (fun p => exists c, fst p = [c]) pairs ->
  replace_all pairs [] = [].
Proof.
  unfold replace_all. induction 1 as [|[old new] pairs [c Hc] _ IH];
    [reflexivity|].
  simpl in *. subst old. exact IH.
Qed.

(** The loop over [zip(ESCAPE_CHARS, REPLACE_CHARS)] is the substitution
    [escape_chars]: no pass rewrites what an earlier one produced. *)
Lemma replace_all_escape (s : pystr) :
  replace_all (combine ESCAPE_CHARS REPLACE_CHARS) s = escape_chars s.
Proof.
  induction s as [|c s IH].
  - apply replace_all_nil, escape_pairs_one_char.
  - change (c :: s) with ([c] ++ s).
    rewrite replace_all_app by apply escape_pairs_one_char.
    rewrite passes_on_char, IH. reflexivity.
Qed.

Lemma backslash_not_escaped : escape_char 92%N = [92%N].
Proof. reflexivity. Qed.

(** C8. [get_escaped_value record field] is [False] when the record has
    no such attribute; for a non-empty string value it is the value
    trimmed of leading and trailing white space, with every double quote,
    newline, carriage return, tab, backspace and form feed replaced by its
    two-character escape sequence (the six passes of the loop amount to
    one substitution per character, and a backslash stays as it is); any
    other value, an empty string included, comes back unchanged. *)
Theorem get_escaped_value_spec (record : PyRecord) (field : pystr) :
  (record !! field = None ->
   get_escaped_value record field = PBool false) /\
  (forall s, record !! field = Some (PStr s) -> s <> [] ->
     trimmed s (PyStr.strip s) /\
     get_escaped_value record field =
       PStr (escape_chars (PyStr.strip s))) /\
  (forall v, record !! field = Some v ->
     (forall s, v = PStr s -> s = []) ->
     get_escaped_value record field = v) /\
  escape_char 92%N = [92%N].
Proof.
  unfold get_escaped_value, getattr_or_false.
  split; [|split; [|split]].
  - intros ->. reflexivity.
  - intros s -> Hs. split; [apply strip_trimmed|].
    destruct s as [|c s]; [contradiction|].
    cbn [py_truthy isinstance_str andb].
    now rewrite replace_all_escape.
  - intros v -> Hv.
    destruct v as [| | | |s| | |]; try reflexivity;
      try (cbn [py_truthy isinstance_str]; now rewrite andb_false_r).
    rewrite (Hv s eq_refl). reflexivity.
  - reflexivity.
Qed.

Lemma get_escaped_value_spec_witness :
  get_escaped_value (note_record (PStr (u "  a b" ++ [9%N; 34%N; 10%N])))
    (u "name") = PBool false /\
  get_escaped_value (note_record (PStr (u "  a b" ++ [9%N; 34%N; 10%N])))
    (u "note") = PStr (u "a b\t" ++ [92%N; 34%N]) /\
  get_escaped_value (note_record (PInt 7)) (u "note") = PInt 7 /\
  get_escaped_value (note_record (PStr [])) (u "note") = PStr [].
Proof.
  split; [|split; [|split]].
  - apply (proj1 (get_escaped_value_spec _ _)). reflexivity.
  - apply (proj1 (proj2 (get_escaped_value_spec _ _))
             (u "  a b" ++ [9%N; 34%N; 10%N])).
    + reflexivity.
    + discriminate.
  - apply (proj1 (proj2 (proj2 (get_escaped_value_spec _ _)))).
    + reflexivity.
    + discriminate.
  - apply (proj1 (proj2 (proj2 (get_escaped_value_spec _ _)))).
    + reflexivity.
    + intros s [= <-]. reflexivity.
Defined.

(** C7, as stated, fails: the newline that ends the value is white space,
    and [strip] removes it before any replacement takes place, so no
    backslash-n is produced for it. *)
Lemma escape_drops_trailing_newline :
  get_escaped_value (note_record (PStr (he_said_hi ++ [10%N]))) (u "note")
  <> PStr (he_said_hi_escaped ++ [92%N; 110%N]).
Proof. vm_compute. discriminate. Qed.

(** C7, amended. On [He said "hi"] followed by a newline the helper
    yields [He said \"hi\"]: each quote has become backslash-quote and the
    trailing newline is trimmed away. A newline inside the value (here
    before [bye]) is emitted as the two characters backslash and [n]. *)
Theorem escape_he_said_hi :
  get_escaped_value (note_record (PStr (he_said_hi ++ [10%N]))) (u "note")
    = PStr he_said_hi_escaped /\
  get_escaped_value
    (note_record (PStr (he_said_hi ++ [10%N] ++ u "bye"))) (u "note")
    = PStr (he_said_hi_escaped ++ [92%N; 110%N] ++ u "bye").
Proof. split; vm_compute; reflexivity. Qed.

End EscapeFacts.

(* ===================================================================== *)
(** ** Theorems: the result of the escape helper *)
(* ===================================================================== *)

Module EscapePropsFacts.

Import Helpers EscapeSpec EscapeProps.

Lemma is_escape_char_spec (c : N) :
  is_escape_char c = true <->
  c = 34%N \/ c = 10%N \/ c = 13%N \/ c = 9%N \/ c = 8%N \/ c = 12%N.
Proof.
  unfold is_escape_char, ESCAPE_CHARS, pystr_eqb. cbn [existsb].
  rewrite !orb_true_iff, !bool_decide_eq_true.
  split.
  - intros [H|[H|[H|[H|[H|[H|H]]]]]]; try discriminate H;
      injection H as ->; auto 10.
  - intros [->|[->|[->|[->|[->| ->]]]]]; auto 10.
Qed.

Lemma escape_char_other (c : N) :
  is_escape_char c = false -> escape_char c = [c].
Proof.
  intros H. unfold escape_char.
  repeat match goal with
         | |- context [(c =? ?k)%N] =>
             destruct (N.eqb_spec c k) as [->|?]; [discriminate H|]
         end.
  reflexivity.
Qed.

Lemma escape_char_table (c : N) :
  is_escape_char c = true ->
  exists x, escape_char c = [92%N; x] /\
            is_escaped_control x = false /\ (x = 34%N -> c = 34%N).
Proof.
  intros H. apply is_escape_char_spec in H.
  destruct H as [->|[->|[->|[->|[->| ->]]]]]; eexists;
    (split; [reflexivity|]); (split; [reflexivity|]);
    intros E; try discriminate E; reflexivity.
Qed.

(** What the helper returns for a non-empty string. *)
Lemma get_escaped_value_str (record : PyRecord) (field s : pystr) :
  record !! field = Some (PStr s) -> s <> [] ->
  get_escaped_value record field = PStr (escape_chars (PyStr.strip s)).
Proof.
  intros H Hs. unfold get_escaped_value, getattr_or_false. rewrite H.
  destruct s as [|c s]; [contradiction|].
  cbn [py_truthy isinstance_str andb].
  now rewrite EscapeFacts.replace_all_escape.
Qed.

Lemma escape_chars_no_control (t : pystr) :
  Forall (fun c => is_escaped_control c = false) (escape_chars t).
Proof.
  unfold escape_chars. induction t as [|c t IH]; [constructor|].
  cbn [flat_map]. apply Forall_app. split; [|exact IH].
  destruct (is_escape_char c) eqn:E.
  - destruct (escape_char_table c E) as (x & -> & Hx & _).
    constructor; [reflexivity|]. constructor; [exact Hx | constructor].
  - rewrite (escape_char_other c E). constructor; [|constructor].
    apply not_true_is_false. intros Hc.
    assert (is_escape_char c = true); [|congruence].
    apply is_escape_char_spec. unfold is_escaped_control in Hc.
    rewrite !orb_true_iff, !N.eqb_eq in Hc. tauto.
Qed.

Lemma escape_chars_quotes (t : pystr) : quotes_escaped (escape_chars t).
Proof.
  unfold escape_chars, quotes_escaped.
  induction t as [|c t IH]; intros pre post Heq.
  - destruct pre; discriminate Heq.
  - cbn [flat_map] in Heq.
    destruct (is_escape_char c) eqn:E.
    + destruct (escape_char_table c E) as (x & Hx & _ & _).
      rewrite Hx in Heq. cbn [app] in Heq.
      destruct pre as [|p1 [|p2 pre]].
      * discriminate Heq.
      * injection Heq as E1 _. exists []. now rewrite <- E1.
      * injection Heq as _ _ Heq.
        destruct (IH pre post Heq) as [pre' ->].
        exists (p1 :: p2 :: pre'). reflexivity.
    + rewrite (escape_char_other c E) in Heq. cbn [app] in Heq.
      destruct pre as [|p pre].
      * injection Heq as E1 _. subst c. discriminate E.
      * injection Heq as _ Heq.
        destruct (IH pre post Heq) as [pre' ->].
        exists (p :: pre'). reflexivity.
Qed.

(** X1. The result of the helper on a non-empty string holds none of
    the control characters newline, carriage return, tab, backspace and
    form feed, and each of its double quotes follows a backslash. *)
Theorem escaped_value_safe (record : PyRecord) (field s : pystr) :
  record !! field = Some (PStr s) -> s <> [] ->
  exists r,
    get_escaped_value record field = PStr r /\
    Forall (fun c => is_escaped_control c = false) r /\
    quotes_escaped r.
Proof.
  intros H Hs. exists (escape_chars (PyStr.strip s)).
  split; [now apply get_escaped_value_str|].
  split; [apply escape_chars_no_control | apply escape_chars_quotes].
Qed.

Lemma escaped_value_safe_witness :
  exists r,
    get_escaped_value
      (note_record (PStr (he_said_hi ++ [10%N] ++ u "bye"))) (u "note")
    = PStr r /\
    Forall (fun c => is_escaped_control c = false) r /\
    quotes_escaped r.
Proof.
  apply (escaped_value_safe
           (note_record (PStr (he_said_hi ++ [10%N] ++ u "bye")))
           (u "note") (he_said_hi ++ [10%N] ++ u "bye")).
  - reflexivity.
  - discriminate.
Defined.

Lemma length_escape_chars (t : pystr) :
  length (escape_chars t) = (length t + escape_count t)%nat.
Proof.
  unfold escape_chars, escape_count.
  induction t as [|c t IH]; [reflexivity|].
  cbn [flat_map List.filter]. rewrite length_app, IH.
  destruct (is_escape_char c) eqn:E.
  - destruct (escape_char_table c E) as (x & -> & _).
    cbn [length]. lia.
  - rewrite (escape_char_other c E). cbn [length]. lia.
Qed.

(** X2. The result is longer than the trimmed value by exactly the
    number of characters that were replaced: each of them becomes two
    characters and nothing else changes length. *)
Theorem escaped_value_length (record : PyRecord) (field s : pystr) :
  record !! field = Some (PStr s) -> s <> [] ->
  exists r,
    get_escaped_value record field = PStr r /\
    length r
    = (length (PyStr.strip s) + escape_count (PyStr.strip s))%nat.
Proof.
  intros H Hs. exists (escape_chars (PyStr.strip s)).
  split; [now apply get_escaped_value_str | apply length_escape_chars].
Qed.

Lemma escaped_value_length_witness :
  exists r,
    get_escaped_value
      (note_record (PStr (he_said_hi ++ [10%N] ++ u "bye"))) (u "note")
    = PStr r /\
    length r = (16 + 3)%nat.
Proof.
  apply (escaped_value_length
           (note_record (PStr (he_said_hi ++ [10%N] ++ u "bye")))
           (u "note") (he_said_hi ++ [10%N] ++ u "bye")).
  - reflexivity.
  - discriminate.
Defined.

Lemma lstrip_id (s : pystr) :
  (forall c s', s = c :: s' -> PyStr.isspace c = false) -> PyStr.lstrip s = s.
Proof.
  destruct s as [|c s]; [reflexivity|].
  intros H. cbn [PyStr.lstrip]. now rewrite (H c s eq_refl).
Qed.

Lemma rstrip_id (s : pystr) :
  (forall c s', s = s' ++ [c] -> PyStr.isspace c = false) -> PyStr.rstrip s = s.
Proof.
  intros H. unfold PyStr.rstrip. rewrite lstrip_id; [apply rev_involutive|].
  intros c s' E. apply (H c (rev s')).
  apply (f_equal (@rev N)) in E. rewrite rev_involutive in E.
  rewrite E. reflexivity.
Qed.

(** A string without white space at its ends is left alone by [strip]. *)
Lemma strip_id (s : pystr) : no_space_at_ends s -> PyStr.strip s = s.
Proof.
  intros [Hh Hl]. unfold PyStr.strip.
  rewrite (lstrip_id s Hh). now apply rstrip_id.
Qed.

Lemma escape_chars_clean (s : pystr) :
  Forall (fun c => is_escape_char c = false) s -> escape_chars s = s.
Proof.
  unfold escape_chars. induction 1 as [|c s Hc _ IH]; [reflexivity|].
  cbn [flat_map]. now rewrite (escape_char_other c Hc), IH.
Qed.

(** X3. A string value with no white space at its ends and none of the
    six characters of the table comes back as it is, backslashes
    included. *)
Theorem escaped_value_unchanged (record : PyRecord) (field s : pystr) :
  record !! field = Some (PStr s) ->
  no_space_at_ends s ->
  Forall (fun c => is_escape_char c = false) s ->
  get_escaped_value record field = PStr s.
Proof.
  intros H Hends Hclean.
  destruct s as [|c s].
  - unfold get_escaped_value, getattr_or_false. now rewrite H.
  - rewrite (get_escaped_value_str record field (c :: s) H) by discriminate.
    rewrite (strip_id _ Hends). now rewrite escape_chars_clean.
Qed.

Lemma escaped_value_unchanged_witness :
  get_escaped_value (note_record (PStr (u "C:\dir name"))) (u "note")
  = PStr (u "C:\dir name").
Proof.
  apply (escaped_value_unchanged (note_record (PStr (u "C:\dir name")))
           (u "note") (u "C:\dir name")).
  - reflexivity.
  - split; intros c s' E.
    + injection E as <- _. reflexivity.
    + change (u "C:\dir name") with (u "C:\dir nam" ++ [101%N]) in E.
      apply app_inj_tail in E as [_ <-]. reflexivity.
  - repeat (constructor; [reflexivity|]). constructor.
Defined.

Lemma no_space_at_ends_app (a m b : pystr) :
  a <> [] -> b <> [] -> no_space_at_ends a -> no_space_at_ends b ->
  no_space_at_ends (a ++ m ++ b).
Proof.
  intros Ha Hb [Hah _] [_ Hbl]. split.
  - intros c s' E. destruct a as [|ca a]; [contradiction|].
    injection E as <- _. apply (Hah ca a eq_refl).
  - intros c s' E. destruct b as [|cb b _] using rev_ind; [contradiction|].
    rewrite !app_assoc in E. apply app_inj_tail in E as [_ <-].
    apply (Hbl cb b eq_refl).
Qed.

Lemma escape_chars_app (a b : pystr) :
  escape_chars (a ++ b) = escape_chars a ++ escape_chars b.
Proof. unfold escape_chars. apply flat_map_app. Qed.

(** X4. The helper cannot tell a newline from the two characters
    backslash and [n]: a value with a newline between [a] and [b] and the
    value with backslash, [n] at that place give the same result, since
    the backslash is not escaped. *)
Theorem escaped_newline_ambiguous (r1 r2 : PyRecord) (field a b : pystr) :
  a <> [] -> b <> [] -> no_space_at_ends a -> no_space_at_ends b ->
  r1 !! field = Some (PStr (a ++ [10%N] ++ b)) ->
  r2 !! field = Some (PStr (a ++ [92%N; 110%N] ++ b)) ->
  get_escaped_value r1 field = get_escaped_value r2 field.
Proof.
  intros Ha Hb Hea Heb H1 H2.
  rewrite (get_escaped_value_str r1 field _ H1)
    by (destruct a; [contradiction | discriminate]).
  rewrite (get_escaped_value_str r2 field _ H2)
    by (destruct a; [contradiction | discriminate]).
  rewrite !strip_id by now apply no_space_at_ends_app.
  rewrite !escape_chars_app. reflexivity.
Qed.

Lemma escaped_newline_ambiguous_witness :
  get_escaped_value (note_record (PStr (u "a" ++ [10%N] ++ u "b"))) (u "note")
  = get_escaped_value (note_record (PStr (u "a\nb"))) (u "note").
Proof.
  apply (escaped_newline_ambiguous _ _ (u "note") (u "a") (u "b")).
  - discriminate.
  - discriminate.
  - split; intros c s' E.
    + injection E as <- _. reflexivity.
    + change (u "a") with ([] ++ [97%N]) in E.
      apply app_inj_tail in E as [_ <-]. reflexivity.
  - split; intros c s' E.
    + injection E as <- _. reflexivity.
    + change (u "b") with ([] ++ [98%N]) in E.
      apply app_inj_tail in E as [_ <-]. reflexivity.
  - reflexivity.
  - reflexivity.
Defined.

Lemma escape_char_ends (c : N) :
  (exists l, escape_char c = [92%N; l] /\ PyStr.isspace l = false)
  \/ escape_char c = [c].
Proof.
  destruct (is_escape_char c) eqn:E.
  - apply is_escape_char_spec in E. left.
    destruct E as [->|[->|[->|[->|[->| ->]]]]];
      eexists; split; reflexivity.
  - right. now apply escape_char_other.
Qed.

Lemma escape_chars_ends (t : pystr) :
  no_space_at_ends t -> no_space_at_ends (escape_chars t).
Proof.
  intros [Hh Hl]. split.
  - intros c s' E. destruct t as [|ct t]; [discriminate E|].
    unfold escape_chars in E. cbn [flat_map] in E.
    pose proof (Hh ct t eq_refl) as Hct.
    destruct (escape_char_ends ct) as [(l & Ec & _)|Ec];
      rewrite Ec in E; injection E as <- _; [reflexivity | assumption].
  - intros c s' E. destruct t as [|ct t _] using rev_ind.
    + destruct s'; discriminate E.
    + rewrite escape_chars_app in E. unfold escape_chars at 2 in E.
      cbn [flat_map] in E. rewrite app_nil_r in E.
      pose proof (Hl ct t eq_refl) as Hct.
      destruct (escape_char_ends ct) as [(l & Ec & Hls)|Ec]; rewrite Ec in E.
      * change [92%N; l] with ([92%N] ++ [l]) in E.
        rewrite app_assoc in E. apply app_inj_tail in E as [_ <-]. exact Hls.
      * apply app_inj_tail in E as [_ <-]. exact Hct.
Qed.

Lemma escape_count_quote (r : pystr) : In 34%N r -> (1 <= escape_count r)%nat.
Proof.
  unfold escape_count. induction r as [|c r IH]; [contradiction|].
  intros [->|H]; cbn [List.filter].
  - change (is_escape_char 34) with true. cbn [length]. lia.
  - destruct (is_escape_char c); cbn [length]; specialize (IH H); lia.
Qed.

Lemma escape_chars_keeps_quote (t : pystr) :
  In 34%N t -> In 34%N (escape_chars t).
Proof.
  unfold escape_chars. intros H. apply in_flat_map. exists 34%N.
  split; [exact H | right; left; reflexivity].
Qed.

(** X5. Escaping is not idempotent: when the trimmed value holds a
    double quote, applying the helper to its own result gives a strictly
    longer string (the quote of each backslash-quote is escaped again). *)
Theorem escaped_value_not_idempotent (record : PyRecord) (field s : pystr) :
  record !! field = Some (PStr s) -> In 34%N (PyStr.strip s) ->
  exists r1 r2,
    get_escaped_value record field = PStr r1 /\
    get_escaped_value (<[field := PStr r1]> record) field = PStr r2 /\
    (length r1 < length r2)%nat.
Proof.
  intros H Hq.
  assert (Hs : s <> []) by (intros ->; contradiction).
  pose proof (EscapeFacts.strip_trimmed s) as [_ Hends].
  set (t := PyStr.strip s) in *.
  assert (Hq1 : In 34%N (escape_chars t)) by now apply escape_chars_keeps_quote.
  exists (escape_chars t), (escape_chars (escape_chars t)).
  split; [now apply get_escaped_value_str|].
  split.
  - rewrite (get_escaped_value_str _ field (escape_chars t)).
    + rewrite strip_id by now apply escape_chars_ends. reflexivity.
    + apply lookup_insert_eq.
    + intros E. rewrite E in Hq1. contradiction.
  - rewrite (length_escape_chars (escape_chars t)).
    pose proof (escape_count_quote _ Hq1). lia.
Qed.

Lemma escaped_value_not_idempotent_witness :
  exists r1 r2,
    get_escaped_value (note_record (PStr he_said_hi)) (u "note") = PStr r1 /\
    get_escaped_value
      (<[u "note" := PStr r1]> (note_record (PStr he_said_hi))) (u "note")
    = PStr r2 /\
    (length r1 < length r2)%nat.
Proof.
  apply (escaped_value_not_idempotent (note_record (PStr he_said_hi))
           (u "note") he_said_hi).
  - reflexivity.
  - vm_compute. auto 20.
Defined.

End EscapePropsFacts.

(* ===================================================================== *)
(** ** Theorems: a dict of str survives [repr] followed by evaluation *)
(* ===================================================================== *)

Module LiteralFacts.

Import PyRepr PyLiteral.

Local Open Scope N_scope.

Lemma hex_val_digit (n : N) : n < 16 -> hex_val (hex_digit n) = Some n.
Proof.
  intros H. unfold hex_val, hex_digit.
  destruct (N.ltb_spec n 10) as [Hlt|Hge].
  - replace ((48 <=? 48 + n) && (48 + n <=? 57)) with true.
    + f_equal. lia.
    + symmetry. apply andb_true_intro. split; apply N.leb_le; lia.
  - replace ((48 <=? 87 + n) && (87 + n <=? 57)) with false.
    + replace ((97 <=? 87 + n) && (87 + n <=? 102)) with true.
      * f_equal. lia.
      * symmetry. apply andb_true_intro. split; apply N.leb_le; lia.
    + symmetry. apply andb_false_intro2. apply N.leb_gt. lia.
Qed.

Lemma div_lt_16 (c k : N) : k <> 0 -> c < 16 * k -> c / k < 16.
Proof. intros Hk H. apply N.Div0.div_lt_upper_bound. lia. Qed.

Lemma mod_16_lt (c : N) : c mod 16 < 16.
Proof. apply N.mod_lt. discriminate. Qed.

Lemma hex_take_hex2 (c : N) (t : pystr) :
  c < 256 -> hex_take 2 0 (hex2 c ++ t) = Some (c, t).
Proof.
  intros H. unfold hex2. cbn [hex_take app].
  rewrite (hex_val_digit (c / 16)) by (apply div_lt_16; lia).
  rewrite (hex_val_digit (c mod 16)) by apply mod_16_lt.
  do 2 f_equal.
  pose proof (N.div_mod c 16). lia.
Qed.

Lemma div_step (c k : N) : c / k = 16 * (c / (k * 16)) + (c / k) mod 16.
Proof.
  rewrite <- N.Div0.div_div. apply N.div_mod. discriminate.
Qed.

Lemma hex_take_hex4 (c : N) (t : pystr) :
  c < 65536 -> hex_take 4 0 (hex4 c ++ t) = Some (c, t).
Proof.
  intros H. unfold hex4. cbn [hex_take app].
  rewrite (hex_val_digit (c / 4096)) by (apply div_lt_16; lia).
  rewrite !hex_val_digit by apply mod_16_lt.
  do 2 f_equal.
  pose proof (N.div_mod c 16 ltac:(discriminate)) as E0.
  pose proof (div_step c 16) as E1.
  pose proof (div_step c 256) as E2.
  change (16 * 16) with 256 in E1.
  change (256 * 16) with 4096 in E2.
  lia.
Qed.

Lemma hex_take_hex8 (c : N) (t : pystr) :
  c < 4294967296 -> hex_take 8 0 (hex8 c ++ t) = Some (c, t).
Proof.
  intros H. unfold hex8. cbn [hex_take app].
  rewrite (hex_val_digit (c / 268435456)) by (apply div_lt_16; lia).
  rewrite !hex_val_digit by apply mod_16_lt.
  do 2 f_equal.
  pose proof (N.div_mod c 16 ltac:(discriminate)) as E0.
  pose proof (div_step c 16) as E1.
  pose proof (div_step c 256) as E2.
  pose proof (div_step c 4096) as E3.
  pose proof (div_step c 65536) as E4.
  pose proof (div_step c 1048576) as E5.
  pose proof (div_step c 16777216) as E6.
  change (16 * 16) with 256 in E1.
  change (256 * 16) with 4096 in E2.
  change (4096 * 16) with 65536 in E3.
  change (65536 * 16) with 1048576 in E4.
  change (1048576 * 16) with 16777216 in E5.
  change (16777216 * 16) with 268435456 in E6.
  lia.
Qed.

Section RoundTrip.

Variable isprintable : N -> bool.

(** The Unicode database calls no surrogate printable. *)
Hypothesis printable_not_surrogate :
  forall c, isprintable c = true -> is_surrogate c = false.

Lemma next_char_escape (q e : N) (t : pystr) :
  q = 39 \/ q = 34 ->
  next_char q (92 :: e :: t) =
    if (e =? 92) || (e =? 39) || (e =? 34) then TChar e t
    else if e =? 110 then TChar 10 t
    else if e =? 114 then TChar 13 t
    else if e =? 116 then TChar 9 t
    else
      let digits :=
        if e =? 120 then 2%nat else if e =? 117 then 4%nat
        else if e =? 85 then 8%nat else 0%nat in
      match digits with
      | O => TBad
      | _ =>
          match hex_take digits 0 t with
          | Some (v, rest) => if v <=? 1114111 then TChar v rest else TBad
          | None => TBad
          end
      end.
Proof.
  intros [-> | ->]; reflexivity.
Qed.

Lemma next_char_raw (q c : N) (t : pystr) :
  (c =? q) = false -> (c =? 92) = false -> raw_ok c = true ->
  next_char q (c :: t) = TChar c t.
Proof.
  intros H1 H2 H3. unfold next_char. now rewrite H1, H2, H3.
Qed.

Lemma next_char_repr (q c : N) (t : pystr) :
  q = 39 \/ q = 34 -> c <= 1114111 ->
  next_char q (repr_char isprintable q c ++ t) = TChar c t.
Proof.
  intros Hq Hc. unfold repr_char.
  destruct ((c =? q) || (c =? 92)) eqn:E1.
  { cbn [app]. rewrite next_char_escape by assumption.
    replace ((c =? 92) || (c =? 39) || (c =? 34)) with true; [reflexivity|].
    symmetry. apply orb_true_iff in E1 as [E|E].
    - apply N.eqb_eq in E. destruct Hq; subst; reflexivity.
    - rewrite E. reflexivity. }
  apply orb_false_iff in E1 as [E1a E1b].
  destruct (N.eqb_spec c 9) as [->|E2].
  { cbn [app]. now rewrite next_char_escape. }
  destruct (N.eqb_spec c 10) as [->|E3].
  { cbn [app]. now rewrite next_char_escape. }
  destruct (N.eqb_spec c 13) as [->|E4].
  { cbn [app]. now rewrite next_char_escape. }
  assert (Hle : (c <=? 1114111) = true) by now apply N.leb_le.
  destruct ((c <? 32) || (c =? 127)) eqn:E5.
  { cbn [app]. rewrite next_char_escape by assumption.
    cbn [N.eqb Pos.eqb orb].
    rewrite hex_take_hex2, Hle; [reflexivity|].
    apply orb_true_iff in E5 as [E|E];
      [apply N.ltb_lt in E | apply N.eqb_eq in E]; lia. }
  apply orb_false_iff in E5 as [E5a E5b].
  apply N.ltb_ge in E5a. apply N.eqb_neq in E5b.
  destruct (N.ltb_spec c 127) as [E6|E6].
  { cbn [app]. apply next_char_raw; try assumption.
    unfold raw_ok, is_surrogate.
    repeat (apply andb_true_intro; split).
    - apply N.leb_le; lia.
    - apply negb_true_iff, N.eqb_neq; lia.
    - apply negb_true_iff, andb_false_intro1, N.leb_gt; lia.
    - exact Hle. }
  destruct (isprintable c) eqn:E7.
  { cbn [app]. apply next_char_raw; try assumption.
    unfold raw_ok. rewrite (printable_not_surrogate c E7).
    repeat (apply andb_true_intro; split).
    - apply N.leb_le; lia.
    - apply negb_true_iff, N.eqb_neq; lia.
    - reflexivity.
    - exact Hle. }
  destruct (N.leb_spec c 255) as [E8|E8].
  { cbn [app]. rewrite next_char_escape by assumption.
    cbn [N.eqb Pos.eqb orb].
    rewrite hex_take_hex2, Hle; [reflexivity | lia]. }
  destruct (N.leb_spec c 65535) as [E9|E9].
  { cbn [app]. rewrite next_char_escape by assumption.
    cbn [N.eqb Pos.eqb orb].
    rewrite hex_take_hex4, Hle; [reflexivity | lia]. }
  cbn [app]. rewrite next_char_escape by assumption.
  cbn [N.eqb Pos.eqb orb].
  rewrite hex_take_hex8, Hle; [reflexivity | lia].
Qed.

Lemma eval_body_repr (q : N) (s t : pystr) (fuel : nat) :
  q = 39 \/ q = 34 -> code_points s -> (length s < fuel)%nat ->
  eval_str_body fuel q (flat_map (repr_char isprintable q) s ++ q :: t)
  = Some (s, t).
Proof.
  intros Hq Hs. revert fuel.
  induction Hs as [|c s Hc Hs IH]; intros fuel Hfuel.
  - destruct fuel as [|fuel]; [cbn in Hfuel; lia|].
    cbn [flat_map app eval_str_body]. unfold next_char.
    rewrite N.eqb_refl. reflexivity.
  - destruct fuel as [|fuel]; [cbn in Hfuel; lia|].
    cbn [flat_map eval_str_body]. rewrite <- app_assoc.
    rewrite next_char_repr by assumption.
    rewrite IH by (cbn in Hfuel; lia). reflexivity.
Qed.

Lemma repr_char_nonempty (q c : N) :
  (1 <= length (repr_char isprintable q c))%nat.
Proof.
  unfold repr_char.
  repeat match goal with
         | |- context [if ?b then _ else _] => destruct b
         end; cbn; lia.
Qed.

Lemma length_flat_map_repr (q : N) (s : pystr) :
  (length s <= length (flat_map (repr_char isprintable q) s))%nat.
Proof.
  induction s as [|c s IH]; [reflexivity|].
  cbn [flat_map]. rewrite length_app.
  pose proof (repr_char_nonempty q c). cbn [length]. lia.
Qed.

Lemma choose_quote_cases (s : pystr) :
  choose_quote s = 39 \/ choose_quote s = 34.
Proof.
  unfold choose_quote.
  destruct (has_char 39 s && negb (has_char 34 s)); auto.
Qed.

(** A string literal written by [repr] reads back as the string. *)
Lemma eval_literal_repr (s t : pystr) :
  code_points s ->
  eval_str_literal (repr_str isprintable s ++ t) = Some (s, t).
Proof.
  intros Hs. unfold repr_str, eval_str_literal.
  pose proof (choose_quote_cases s) as Hq.
  set (q := choose_quote s) in *.
  cbn [app].
  replace ((q =? 39) || (q =? 34)) with true
    by (destruct Hq as [-> | ->]; reflexivity).
  rewrite <- !app_assoc. cbn [app].
  apply eval_body_repr; [assumption | assumption |].
  cbn [length]. rewrite length_app.
  pose proof (length_flat_map_repr q s). lia.
Qed.

Lemma repr_str_head (s : pystr) :
  exists q r, repr_str isprintable s = q :: r /\ (q = 39 \/ q = 34).
Proof.
  unfold repr_str. eexists _, _. split; [reflexivity|].
  apply choose_quote_cases.
Qed.

Lemma eval_entries_repr (d : list (pystr * pystr)) (fuel : nat) :
  d <> [] -> Forall entry_ok d -> (length d <= fuel)%nat ->
  eval_entries fuel (join (u ", ") (map (repr_entry isprintable) d) ++ u "}") = Some d.
Proof.
  intros Hne Hd. revert fuel.
  induction Hd as [|[k v] d [Hk Hv] Hd IH]; [contradiction|].
  intros fuel Hfuel.
  destruct fuel as [|fuel]; [cbn in Hfuel; lia|].
  cbn [fst snd] in Hk, Hv.
  destruct d as [|kv d].
  - cbn [map join eval_entries]. unfold repr_entry. cbn [fst snd].
    rewrite <- !app_assoc.
    rewrite eval_literal_repr by assumption.
    change (expect (u ": ") (u ": " ++ ?x)) with (Some x). cbv beta iota.
    rewrite eval_literal_repr by assumption.
    reflexivity.
  - change (join (u ", ") (map (repr_entry isprintable) ((k, v) :: kv :: d)))
      with (repr_entry isprintable (k, v) ++ u ", "
              ++ join (u ", ") (map (repr_entry isprintable) (kv :: d))).
    cbn [eval_entries]. unfold repr_entry at 1. cbn [fst snd].
    rewrite <- !app_assoc.
    rewrite eval_literal_repr by assumption.
    change (expect (u ": ") (u ": " ++ ?x)) with (Some x). cbv beta iota.
    rewrite eval_literal_repr by assumption.
    change (pystr_eqb (u ", " ++ ?x) (u "}")) with false.
    change (expect (u ", ") (u ", " ++ ?x)) with (Some x). cbv beta iota.
    rewrite IH; [reflexivity | discriminate | cbn in Hfuel |- *; lia].
Qed.

End RoundTrip.

Lemma setitem_fresh (d : list (pystr * pystr)) (k v : pystr) :
  ~ In k (map fst d) -> setitem d k v = d ++ [(k, v)].
Proof.
  induction d as [|[k' v'] d IH]; intros Hk; [reflexivity|].
  cbn [setitem]. unfold pystr_eqb.
  rewrite bool_decide_eq_false_2.
  - cbn [app]. rewrite IH; [reflexivity|].
    intros Hin. apply Hk. right. exact Hin.
  - intros ->. apply Hk. left. reflexivity.
Qed.

Lemma build_dict_from (acc entries : list (pystr * pystr)) :
  List.NoDup (map fst (acc ++ entries)) ->
  fold_left (fun d kv => setitem d (fst kv) (snd kv)) entries acc
  = acc ++ entries.
Proof.
  revert acc. induction entries as [|[k v] entries IH]; intros acc Hnd.
  - now rewrite app_nil_r.
  - cbn [fold_left fst snd].
    rewrite setitem_fresh.
    + rewrite IH; rewrite <- app_assoc; [reflexivity | exact Hnd].
    + rewrite map_app in Hnd. cbn [map fst] in Hnd.
      apply List.NoDup_remove_2 in Hnd.
      intros Hin. apply Hnd. apply in_or_app. left. exact Hin.
Qed.

(** Distinct keys: the dict built from the entries is the entries. *)
Lemma build_dict_nodup (entries : list (pystr * pystr)) :
  List.NoDup (map fst entries) -> build_dict entries = entries.
Proof. intros H. apply (build_dict_from [] entries H). Qed.

Section DictRoundTrip.

Variable isprintable : N -> bool.
Variable float_repr : spec_float -> pystr.

Hypothesis printable_not_surrogate :
  forall c, isprintable c = true -> is_surrogate c = false.

Lemma repr_str_items (d : list (pystr * pystr)) :
  repr isprintable float_repr (PDict (str_items d))
  = [123] ++ join (u ", ") (map (repr_entry isprintable) d) ++ [125].
Proof.
  cbn [repr]. do 2 f_equal. unfold str_items.
  rewrite List.map_map. reflexivity.
Qed.

Lemma repr_entry_head (kv : pystr * pystr) :
  exists q r, repr_entry isprintable kv = q :: r /\ (q = 39 \/ q = 34).
Proof.
  unfold repr_entry.
  destruct (repr_str_head isprintable (fst kv)) as (q & r & -> & Hq).
  exists q. eexists. split; [reflexivity | exact Hq].
Qed.

Lemma join_entries_head (kv : pystr * pystr) (d : list (pystr * pystr)) :
  exists q r, join (u ", ") (map (repr_entry isprintable) (kv :: d)) = q :: r
              /\ (q = 39 \/ q = 34).
Proof.
  destruct (repr_entry_head kv) as (q & r & E & Hq).
  exists q. destruct d as [|kv' d].
  - exists r. split; [exact E | exact Hq].
  - change (join (u ", ") (map (repr_entry isprintable) (kv :: kv' :: d)))
      with (repr_entry isprintable kv ++ u ", "
              ++ join (u ", ") (map (repr_entry isprintable) (kv' :: d))).
    rewrite E. eexists. split; [reflexivity | exact Hq].
Qed.

Lemma length_join_entries (d : list (pystr * pystr)) :
  (length d <= length (join (u ", ") (map (repr_entry isprintable) d)))%nat.
Proof.
  induction d as [|kv d IH]; [reflexivity|].
  destruct (repr_entry_head kv) as (q & r & E & _).
  destruct d as [|kv' d].
  - cbn [map join]. rewrite E. cbn [length]. lia.
  - change (join (u ", ") (map (repr_entry isprintable) (kv :: kv' :: d)))
      with (repr_entry isprintable kv ++ u ", "
              ++ join (u ", ") (map (repr_entry isprintable) (kv' :: d))).
    rewrite E, !length_app. cbn [length] in *. lia.
Qed.

(** Evaluating the text [repr] writes for a dict of str gives the dict
    back, when its keys are distinct and its strings are made of code
    points. *)
Lemma eval_repr_str_dict (d : list (pystr * pystr)) :
  List.NoDup (map fst d) -> Forall entry_ok d ->
  eval_str_dict (repr isprintable float_repr (PDict (str_items d)))
  = Some d.
Proof.
  intros Hnd Hd. rewrite repr_str_items.
  destruct d as [|kv d]; [reflexivity|].
  unfold eval_str_dict.
  destruct (join_entries_head kv d) as (q & r & E & Hq).
  replace (pystr_eqb _ (u "{}")) with false.
  - cbn [app].
    change [125] with (u "}").
    rewrite (eval_entries_repr isprintable printable_not_surrogate);
      [| discriminate | exact Hd |].
    + now rewrite build_dict_nodup.
    + rewrite length_app. pose proof (length_join_entries (kv :: d)). lia.
  - symmetry. apply bool_decide_eq_false_2. rewrite E.
    destruct Hq as [-> | ->]; discriminate.
Qed.

End DictRoundTrip.

End LiteralFacts.
(* ===================================================================== *)
(** ** Theorems: the server action *)
(* ===================================================================== *)

Module ActionFacts.

Import IrServerAction Attempt.

Section Facts.

Context (X : Externals).

(** *** What a request method touches *)

Lemma getattr_execute_cases name func :
  getattr_execute X name = Ok func ->
  func = _execute_webhook_get_request X \/
  func = _execute_webhook_post_request X.
Proof.
  unfold getattr_execute. cbn [execute_methods find fst snd].
  destruct (pystr_eqb _ name); [intros [= <-]; now left|].
  destruct (pystr_eqb _ name); [intros [= <-]; now right|].
  discriminate.
Qed.

Lemma get_request_world self record ctx w r w' :
  _execute_webhook_get_request X self record ctx w = (r, w') ->
  logs w' = logs w /\ jobs w' = jobs w /\ diag w' = diag w /\
  (sent w' = sent w \/
   exists req, sent w' = sent w ++ [req] /\
               eval_headers X self = Ok (req_headers req)).
Proof.
  unfold _execute_webhook_get_request, bind, lift, ret, requests_get,
    requests_call.
  destruct (eval_headers X self) as [h|e]; [|intros [= <- <-]; auto].
  destruct (_prepare_data_for_get X self record ctx) as [p|e];
    [|intros [= <- <-]; auto].
  destruct (requests_send X _ (sent w)) as [resp|e]; intros [= <- <-];
    cbn; repeat split; right; eexists; split; reflexivity.
Qed.

Lemma post_request_world self record ctx w r w' :
  _execute_webhook_post_request X self record ctx w = (r, w') ->
  logs w' = logs w /\ jobs w' = jobs w /\ diag w' = diag w /\
  (sent w' = sent w \/
   exists req, sent w' = sent w ++ [req] /\
               eval_headers X self = Ok (req_headers req)).
Proof.
  unfold _execute_webhook_post_request, bind, lift, ret, requests_post,
    requests_call.
  destruct (eval_headers X self) as [h|e]; [|intros [= <- <-]; auto].
  destruct (post_payload X self record ctx) as [p|e];
    [|intros [= <- <-]; auto].
  destruct (requests_send X _ (sent w)) as [resp|e]; intros [= <- <-];
    cbn; repeat split; right; eexists; split; reflexivity.
Qed.

Lemma request_world func self record ctx w r w' :
  func = _execute_webhook_get_request X \/
  func = _execute_webhook_post_request X ->
  func self record ctx w = (r, w') ->
  logs w' = logs w /\ jobs w' = jobs w /\ diag w' = diag w /\
  (sent w' = sent w \/
   exists req, sent w' = sent w ++ [req] /\
               eval_headers X self = Ok (req_headers req)).
Proof.
  intros [-> | ->]; [apply get_request_world | apply post_request_world].
Qed.

(** The [try] block writes no audit entry. *)
Lemma try_block_logs self record ctx w :
  logs (snd (try_block X self record ctx w)) = logs w.
Proof.
  unfold try_block.
  destruct (getattr_execute X _) as [func|e] eqn:Hf; [|reflexivity].
  apply getattr_execute_cases in Hf.
  destruct (func self record ctx w) as [r w'] eqn:Hr.
  destruct (request_world _ _ _ _ _ _ _ Hf Hr) as (Hl & _).
  destruct r as [[response body]|e]; [|exact Hl].
  repeat case_match; exact Hl.
Qed.

(** *** The audit logger *)

Lemma webhook_logging_off self body response w :
  log_webhook_calls self = false ->
  _webhook_logging X self body response w = (Ok tt, w).
Proof. unfold _webhook_logging. now intros ->. Qed.

Lemma webhook_logging_on self body response w :
  log_webhook_calls self = true ->
  match getattr_content response with
  | Ok c =>
      exists w',
        _webhook_logging X self body response w = (Ok tt, w') /\
        logs w' =
          logs w ++ [entry_of X self body c (getattr_status_code response)] /\
        sent w' = sent w
  | Raise e => _webhook_logging X self body response w = (Raise e, w)
  end.
Proof.
  unfold _webhook_logging. intros ->.
  unfold bind, lift, create.
  destruct (getattr_content response) as [c|e]; [|reflexivity].
  eexists. split; [reflexivity|]. split; reflexivity.
Qed.

(** The failure handler writes its diagnostic and hands the exception,
    in place of a response, to the audit logger. *)
Lemma handle_exception_logging self response e body w :
  exists w1,
    logs w1 = logs w /\ sent w1 = sent w /\ jobs w1 = jobs w /\
    _handle_exception X self response e body w
    = _webhook_logging X self body (inr e) w1.
Proof.
  unfold _handle_exception, bind.
  repeat match goal with
         | |- context [if ?b then _ else _] => destruct b
         end;
    unfold _logger_error;
    (eexists; split; [|split; [|split]]; cycle 3;
     [reflexivity | reflexivity ..]).
Qed.

(** *** Failed attempts and the audit log *)

Lemma execute_webhook_failed self record ectx w :
  final_state X self record ectx w = Failed ->
  exists body e w1,
    logs w1 = logs w /\
    _execute_webhook X self record ectx w
    = _webhook_logging X self body (inr e) w1.
Proof.
  unfold final_state, _execute_webhook.
  pose proof (try_block_logs self record
                (default_eval_context X record ectx) w) as Hl.
  destruct (try_block X self record _ w) as [[response body|response body e] w'];
    [discriminate|].
  intros _. cbn [snd] in Hl.
  destruct (handle_exception_logging self response e body w')
    as (w1 & Hl1 & _ & _ & ->).
  exists body, e, w1. split; [congruence | reflexivity].
Qed.

(** C1, amended. A failed attempt reaches the audit log through the same
    logger as a successful one, and that logger is gated by
    [log_webhook_calls]: with the flag off, the attempt ends without an
    exception and without a new entry; with the flag on, an attempt that
    ends without an exception has created exactly one entry; in no case
    is more than one entry created. *)
Theorem failed_attempt_logging self record ectx w :
  final_state X self record ectx w = Failed ->
  (log_webhook_calls self = false ->
   fst (_execute_webhook X self record ectx w) = Ok tt /\
   logs (snd (_execute_webhook X self record ectx w)) = logs w) /\
  (log_webhook_calls self = true ->
   fst (_execute_webhook X self record ectx w) = Ok tt ->
   exists entry,
     logs (snd (_execute_webhook X self record ectx w)) = logs w ++ [entry]) /\
  (logs (snd (_execute_webhook X self record ectx w)) = logs w \/
   exists entry,
     logs (snd (_execute_webhook X self record ectx w)) = logs w ++ [entry]).
Proof.
  intros Hf.
  destruct (execute_webhook_failed self record ectx w Hf)
    as (body & e & w1 & Hl & ->).
  destruct (log_webhook_calls self) eqn:Hflag.
  - pose proof (webhook_logging_on self body (inr e) w1 Hflag) as Hon.
    destruct (getattr_content (inr e)) as [c|e'].
    + destruct Hon as (w' & -> & Hlogs & _). rewrite Hl in Hlogs.
      cbn [fst snd]. split; [discriminate|].
      split; [intros _ _|right]; eexists; exact Hlogs.
    + rewrite Hon. cbn [fst snd].
      split; [discriminate|]. split; [discriminate | left; exact Hl].
  - rewrite (webhook_logging_off self body (inr e) w1 Hflag).
    cbn [fst snd]. split; [auto|]. split; [discriminate | left; exact Hl].
Qed.

(** *** Successful attempts *)

Lemma raise_for_status_ok response :
  raise_for_status response = Ok tt <->
  ~ (400 <= status_code response < 600).
Proof.
  unfold raise_for_status.
  destruct (Z.leb_spec 400 (status_code response));
    destruct (Z.ltb_spec (status_code response) 600); cbn [andb];
    split; try discriminate; try reflexivity; intros; lia.
Qed.

(** The [try] block runs to its end exactly when the request method
    returns a response, [raise_for_status] lets it pass, and the
    classified status is equal to 200. *)
Lemma try_block_completed self record ctx w response body w1 :
  try_block X self record ctx w = (Completed response body, w1) <->
  exists func status,
    getattr_execute X (execute_name self) = Ok func /\
    func self record ctx w = (Ok (response, body), w1) /\
    ~ (400 <= status_code response < 600) /\
    _get_body_status_code X self response = Ok status /\
    py_eq_int status 200 = true.
Proof.
  unfold try_block. fold (execute_name self).
  split.
  - destruct (getattr_execute X (execute_name self)) as [func|e];
      [|discriminate].
    destruct (func self record ctx w) as [[[response' body']|e] w']
      eqn:Hfun; [|discriminate].
    destruct (raise_for_status response') as [[]|e] eqn:Hr; [|discriminate].
    destruct (_get_body_status_code X self response') as [status|e] eqn:Hs;
      [|discriminate].
    destruct (py_eq_int status 200) eqn:Heq; cbn [negb]; [|discriminate].
    intros [= <- <- <-].
    exists func, status.
    split; [reflexivity|]. split; [exact Hfun|].
    split; [now apply raise_for_status_ok|]. split; assumption.
  - intros (func & status & -> & -> & Hr & -> & ->).
    apply raise_for_status_ok in Hr. rewrite Hr. reflexivity.
Qed.

(** C4. An attempt ends in [Succeeded] exactly when a response was
    received, its HTTP status is not an error status (outside 400..599,
    so that [raise_for_status] raises nothing) and the classified status
    is equal to 200; a successful attempt of an action with
    [log_webhook_calls] on creates exactly one audit entry, whose status
    is the HTTP status code of the response and not the classified
    status. *)
Theorem succeeded_attempt self record ectx w :
  (final_state X self record ectx w = Succeeded <->
   exists func response body w1 status,
     getattr_execute X (execute_name self) = Ok func /\
     func self record (default_eval_context X record ectx) w
     = (Ok (response, body), w1) /\
     ~ (400 <= status_code response < 600) /\
     _get_body_status_code X self response = Ok status /\
     py_eq_int status 200 = true) /\
  (forall func response body w1 status,
     getattr_execute X (execute_name self) = Ok func ->
     func self record (default_eval_context X record ectx) w
     = (Ok (response, body), w1) ->
     ~ (400 <= status_code response < 600) ->
     _get_body_status_code X self response = Ok status ->
     py_eq_int status 200 = true ->
     log_webhook_calls self = true ->
     exists entry w2,
       _execute_webhook X self record ectx w = (Ok tt, w2) /\
       logs w2 = logs w ++ [entry] /\
       log_status entry = PInt (status_code response) /\
       log_response entry = ustr X (PBytes (content response))).
Proof.
  split.
  - unfold final_state. split.
    + destruct (try_block X self record _ w) as [[response body|? ? ?] w1]
        eqn:Ht; [|discriminate].
      intros _. apply try_block_completed in Ht.
      destruct Ht as (func & status & H).
      exists func, response, body, w1, status. exact H.
    + intros (func & response & body & w1 & status & H).
      assert (Ht : try_block X self record
                     (default_eval_context X record ectx) w
                   = (Completed response body, w1))
        by (apply try_block_completed; eauto).
      now rewrite Ht.
  - intros func response body w1 status Hf Hr Hs Hc Heq Hflag.
    assert (Ht : try_block X self record
                   (default_eval_context X record ectx) w
                 = (Completed response body, w1))
      by (apply try_block_completed; exists func, status; auto).
    pose proof (try_block_logs self record
                  (default_eval_context X record ectx) w) as Hl.
    rewrite Ht in Hl. cbn [snd] in Hl.
    unfold _execute_webhook. rewrite Ht.
    pose proof (webhook_logging_on self body (inl response) w1 Hflag) as Hon.
    cbn [getattr_content getattr_status_code] in Hon.
    destruct Hon as (w2 & -> & Hlogs & _).
    eexists _, w2. split; [reflexivity|].
    split; [rewrite Hlogs, Hl; reflexivity|].
    split; reflexivity.
Qed.

(** *** The status classifier *)

Lemma field_eq_true v s : field_eq v s = true <-> v = Some s.
Proof.
  unfold field_eq, pystr_eqb. destruct v as [s'|].
  - rewrite bool_decide_eq_true. split; [now intros -> | now intros [= ->]].
  - split; discriminate.
Qed.

(** The classifier looks at the body only when the [type] of the action
    is [graphql]; the request type plays no part. *)
Lemma classify_other_type self response :
  type self <> Some (u "graphql") ->
  _get_body_status_code X self response = Ok (PInt (status_code response)).
Proof.
  intros Ht. unfold _get_body_status_code.
  destruct (field_eq (type self) (u "graphql")) eqn:E; [|reflexivity].
  apply field_eq_true in E. contradiction.
Qed.

Lemma classify_empty_body self response :
  text response = [] ->
  _get_body_status_code X self response = Ok (PInt (status_code response)).
Proof.
  intros Ht. unfold _get_body_status_code. rewrite Ht.
  destruct (field_eq (type self) (u "graphql")); reflexivity.
Qed.

Lemma classify_parse_error self response e :
  type self = Some (u "graphql") -> text response <> [] ->
  json_loads X (text response) = Raise e ->
  _get_body_status_code X self response = Raise e.
Proof.
  intros Ht Hne Hj. unfold _get_body_status_code.
  apply field_eq_true in Ht. rewrite Ht.
  destruct (text response) as [|c s] eqn:E; [contradiction|].
  cbn [py_truthy]. rewrite Hj. reflexivity.
Qed.

(** C6, amended. Classification never raises on an empty body: the
    result is the HTTP status code. A body that is not empty is parsed
    only when the [type] of the action is [graphql]; then a text that
    [json.loads] refuses makes classification raise that same error (there
    is no fallback), and for any other [type] the result is the HTTP
    status code whatever the body. *)
Theorem classify_unparseable_body self response :
  (text response = [] ->
   _get_body_status_code X self response
   = Ok (PInt (status_code response))) /\
  (type self <> Some (u "graphql") ->
   _get_body_status_code X self response
   = Ok (PInt (status_code response))) /\
  (forall e,
     type self = Some (u "graphql") -> text response <> [] ->
     json_loads X (text response) = Raise e ->
     _get_body_status_code X self response = Raise e).
Proof.
  split; [apply classify_empty_body|].
  split; [apply classify_other_type|].
  intros e. apply classify_parse_error.
Qed.

(** With the [type] of the action equal to [graphql], a body whose
    [data] is a non-empty object is scanned, whatever the HTTP status. *)
Lemma classify_scans_data self response d entries :
  type self = Some (u "graphql") -> text response <> [] ->
  json_loads X (text response) = Ok (PDict d) ->
  dict_get d (u "data") = PDict entries -> entries <> [] ->
  _get_body_status_code X self response
  = Ok (scan_data (PInt (status_code response)) entries).
Proof.
  intros Ht Hne Hj Hd He. unfold _get_body_status_code.
  apply field_eq_true in Ht. rewrite Ht.
  destruct (text response) as [|c s] eqn:E; [contradiction|].
  cbn [py_truthy]. rewrite Hj. cbn [rbind].
  destruct d as [|kv d]; [discriminate Hd|].
  cbn [py_truthy get_data rbind]. rewrite Hd.
  destruct entries; [contradiction | reflexivity].
Qed.

(** An object that has the key [statusCode] decides the status,
    whatever was found before it. *)
Lemma scan_value_hit items a b :
  existsb (is_key (u "statusCode")) items = true ->
  scan_value a (PDict items) = scan_value b (PDict items).
Proof.
  cbn [scan_value]. revert a b.
  induction items as [|kv items IH]; [discriminate|].
  intros a b Hex. cbn [fold_left existsb] in *.
  destruct (is_key (u "statusCode") kv) eqn:Hk; [reflexivity|].
  apply IH. exact Hex.
Qed.

(** The scan keeps the value found last: objects after the one that
    holds it have no [statusCode]. *)
Lemma scan_data_last status before k items after :
  existsb (is_key (u "statusCode")) items = true ->
  (forall s, scan_data s after = s) ->
  scan_data status (before ++ [(k, PDict items)] ++ after)
  = scan_value PNone (PDict items).
Proof.
  intros Hex Hafter. unfold scan_data.
  rewrite !fold_left_app. fold (scan_data status before).
  cbn [fold_left snd].
  fold (scan_data (scan_value (scan_data status before) (PDict items)) after).
  rewrite Hafter. now apply scan_value_hit.
Qed.

(** *** The body of a POST request *)

Lemma prepare_prefix_request :
  u "_prepare_data_for_post_request"
  = u "_prepare_data_for_post_" ++ u "request".
Proof. reflexivity. Qed.

Lemma prepare_prefix_graphql :
  u "_prepare_data_for_post_graphql"
  = u "_prepare_data_for_post_" ++ u "graphql".
Proof. reflexivity. Qed.

Lemma hasattr_prepare_other (rt : option pystr) :
  rt <> Some (u "request") -> rt <> Some (u "graphql") ->
  hasattr_prepare X (u "_prepare_data_for_post_" ++ fmt_s rt) = false.
Proof.
  intros H1 H2. unfold hasattr_prepare.
  cbn [prepare_methods existsb fst]. unfold pystr_eqb.
  assert (Hfmt : forall s, fmt_s rt = s -> s = u "False" \/ rt = Some s).
  { intros s <-. destruct rt; cbn; auto. }
  rewrite !bool_decide_eq_false_2; [reflexivity | |].
  - rewrite prepare_prefix_graphql. intros E. apply app_inv_head in E.
    symmetry in E. destruct (Hfmt _ E) as [E'|E']; [discriminate | auto].
  - rewrite prepare_prefix_request. intros E. apply app_inv_head in E.
    symmetry in E. destruct (Hfmt _ E) as [E'|E']; [discriminate | auto].
Qed.

(** C9. For a request type other than [request] and [graphql] ([slack],
    any other text, or no value at all), the body of the POST request is
    built without an error of its own by the builder of the generic
    request: the result is that of the same action with request type
    [request], namely the body template rendered with the context and
    the record, encoded as UTF-8 bytes. *)
Theorem post_payload_falls_back self record ctx :
  request_type self <> Some (u "request") ->
  request_type self <> Some (u "graphql") ->
  post_payload X self record ctx
  = _prepare_data_for_post_request X self record ctx /\
  post_payload X self record ctx
  = post_payload X (with_request_type self (Some (u "request"))) record ctx /\
  post_payload X self record ctx
  = rbind (jinja_render X (body_template self) (with_record ctx record))
          (fun data => rbind (utf8_encode data) (fun b => Ok (PBytes b))).
Proof.
  intros H1 H2.
  assert (E : post_payload X self record ctx
              = _prepare_data_for_post_request X self record ctx).
  { unfold post_payload. rewrite hasattr_prepare_other by assumption.
    reflexivity. }
  split; [exact E|]. split; [|rewrite E; reflexivity].
  rewrite E. reflexivity.
Qed.

(** *** The headers of the request *)

Lemma eval_headers_unset self :
  evaluates_literals X ->
  headers self = None \/ headers self = Some [] ->
  eval_headers X self = Ok (PDict []).
Proof.
  intros Hev Hh. unfold eval_headers, _get_webhook_headers.
  assert (E : safe_eval X (builtin_str X (PDict [])) = Ok (PDict []))
    by (apply (Hev (u "{}") []); reflexivity).
  destruct Hh as [-> | ->]; exact E.
Qed.

Lemma eval_headers_str_dict self h d :
  evaluates_literals X -> unicode_database X ->
  headers self = Some h -> h <> [] ->
  json_loads X (PyStr.strip h) = Ok (PDict (PyLiteral.str_items d)) ->
  List.NoDup (map fst d) -> Forall PyLiteral.entry_ok d ->
  eval_headers X self = Ok (PDict (PyLiteral.str_items d)).
Proof.
  intros Hev Hdb Hh Hne Hj Hnd Hd.
  unfold eval_headers, _get_webhook_headers. rewrite Hh.
  destruct h as [|c h]; [contradiction|].
  rewrite Hj. cbn [rbind builtin_dict].
  apply Hev. unfold builtin_str.
  now apply LiteralFacts.eval_repr_str_dict.
Qed.

(** C10. When the stored headers are not set or empty, the headers
    evaluated for the request are the empty dict. When they are a text
    that [json.loads] reads as an object with distinct str keys and str
    values, the headers evaluated are that very dict: [str] writes it as a
    dict display and evaluating the display gives it back. The GET and
    POST methods attach the evaluated headers to the request they send.
    The two premises say what the evaluation of a literal and the Unicode
    database are taken to be. *)
Theorem request_headers self :
  evaluates_literals X -> unicode_database X ->
  (headers self = None \/ headers self = Some [] ->
   eval_headers X self = Ok (PDict [])) /\
  (forall h d,
     headers self = Some h -> h <> [] ->
     json_loads X (PyStr.strip h) = Ok (PDict (PyLiteral.str_items d)) ->
     List.NoDup (map fst d) -> Forall PyLiteral.entry_ok d ->
     eval_headers X self = Ok (PDict (PyLiteral.str_items d))) /\
  (forall func record ctx w r w' req,
     func = _execute_webhook_get_request X \/
     func = _execute_webhook_post_request X ->
     func self record ctx w = (r, w') ->
     sent w' = sent w ++ [req] ->
     eval_headers X self = Ok (req_headers req)).
Proof.
  intros Hev Hdb.
  split; [now apply eval_headers_unset|].
  split; [intros h d; now apply eval_headers_str_dict|].
  intros func record ctx w r w' req Hf Hr Hs.
  destruct (request_world _ _ _ _ _ _ _ Hf Hr)
    as (_ & _ & _ & [Hsame | (req' & Hs' & Hh)]).
  - rewrite Hsame in Hs. apply (f_equal (@length _)) in Hs.
    rewrite length_app in Hs. cbn in Hs. lia.
  - rewrite Hs' in Hs. apply app_inj_tail in Hs as [_ ->]. exact Hh.
Qed.

(** *** The batch *)

(** With [log_webhook_calls] off, no attempt raises. *)
Lemma execute_webhook_quiet self record ectx w :
  log_webhook_calls self = false ->
  fst (_execute_webhook X self record ectx w) = Ok tt.
Proof.
  intros Hflag. unfold _execute_webhook.
  destruct (try_block X self record _ w) as [[response body|response body e] w'].
  - now rewrite webhook_logging_off.
  - destruct (handle_exception_logging self response e body w')
      as (w1 & _ & _ & _ & ->).
    now rewrite webhook_logging_off.
Qed.

Lemma for_each_quiet {A} (l : list A) (body : A -> M unit) w :
  (forall a w, fst (body a w) = Ok tt) ->
  fst (for_each l body w) = Ok tt.
Proof.
  intros Hb. revert w. induction l as [|a l IH]; intros w; [reflexivity|].
  cbn [for_each]. unfold bind.
  specialize (Hb a w). destruct (body a w) as [[[]|e] w']; cbn in Hb;
    [apply IH | discriminate].
Qed.

(** With [log_webhook_calls] off, the batch goes through all its records
    whatever happens to each of them. *)
Lemma batch_quiet self ctx records w :
  log_webhook_calls self = false ->
  iter_records ctx = Ok records ->
  exists a, fst (_run_action_custom_webhook_multi X self ctx w) = Ok a.
Proof.
  intros Hflag Hrs. unfold _run_action_custom_webhook_multi.
  rewrite Hrs. unfold bind at 1. unfold lift.
  unfold bind.
  pose proof (for_each_quiet records
    (fun record =>
       if delay_execution self
       then with_delay_execute_webhook self record
       else _execute_webhook X self record (Some ctx)) w) as Hq.
  destruct (for_each records _ w) as [[[]|e] w'].
  - eexists. reflexivity.
  - cbn in Hq. exfalso.
    assert (Raise e = Ok tt :> result unit); [|discriminate].
    apply Hq. intros a w0.
    destruct (delay_execution self); [reflexivity|].
    now apply execute_webhook_quiet.
Qed.

End Facts.

(** C1, as stated, fails: with [log_webhook_calls] off, an attempt on an
    endpoint that cannot be reached is a failed attempt and leaves the
    audit log empty. *)
Lemma failed_attempt_without_entry :
  ~ (forall X self record ectx w,
       final_state X self record ectx w = Failed ->
       exists entry,
         logs (snd (_execute_webhook X self record ectx w))
         = logs w ++ [entry]).
Proof.
  intros H.
  destruct (H (Scenario.externals Scenario.unreachable)
              (Scenario.action (u "request") (u "ir.actions.server") false)
              (Scenario.partner "Ann") None Scenario.w0)
    as [entry He].
  - vm_compute. reflexivity.
  - vm_compute in He. discriminate He.
Qed.

(** *** The worked scenarios *)

Import Scenario.

Lemma scenario_evaluates_literals answer :
  evaluates_literals (externals answer).
Proof.
  intros s d H. cbn [safe_eval externals]. now rewrite H.
Qed.

Lemma scenario_unicode_database answer :
  unicode_database (externals answer).
Proof.
  intros c. cbn [isprintable externals].
  unfold latin1_printable, PyLiteral.is_surrogate.
  intros H. apply andb_true_iff in H as [H _].
  apply andb_true_iff in H as [_ H]. apply N.leb_le in H.
  apply andb_false_intro1. apply N.leb_gt. lia.
Qed.

Lemma failed_attempt_logging_witness :
  (final_state (externals unreachable)
     (action (u "request") (u "ir.actions.server") false)
     (partner "Ann") None w0 = Failed /\
   logs (snd (_execute_webhook (externals unreachable)
                (action (u "request") (u "ir.actions.server") false)
                (partner "Ann") None w0)) = logs w0) /\
  (final_state (externals gateway_down)
     (action (u "request") (u "ir.actions.server") true)
     (partner "Ann") None w0 = Failed /\
   exists entry,
     logs (snd (_execute_webhook (externals gateway_down)
                  (action (u "request") (u "ir.actions.server") true)
                  (partner "Ann") None w0)) = logs w0 ++ [entry]).
Proof.
  split; split.
  - vm_compute. reflexivity.
  - apply (proj1 (failed_attempt_logging (externals unreachable)
                    (action (u "request") (u "ir.actions.server") false)
                    (partner "Ann") None w0 ltac:(vm_compute; reflexivity))).
    reflexivity.
  - vm_compute. reflexivity.
  - apply (proj1 (proj2 (failed_attempt_logging (externals gateway_down)
                    (action (u "request") (u "ir.actions.server") true)
                    (partner "Ann") None w0 ltac:(vm_compute; reflexivity)))).
    + reflexivity.
    + vm_compute. reflexivity.
Defined.

(** C2 fails on the code. The action logs its calls and the endpoint
    cannot be reached; the batch holds two records. The connection error
    of the first attempt is caught, but the failure handler hands the
    exception to the audit logger, which reads [content] on it: the
    [AttributeError] leaves [_execute_webhook] and the loop, one request
    has been sent, and the second record is never attempted. *)
Theorem batch_aborted_by_logger :
  fst (_run_action_custom_webhook_multi (externals unreachable)
         (action (u "request") (u "ir.actions.server") true)
         (batch [partner "Ann"; partner "Bob"]) w0)
  = Raise AttributeError /\
  length (sent (snd (_run_action_custom_webhook_multi (externals unreachable)
                       (action (u "request") (u "ir.actions.server") true)
                       (batch [partner "Ann"; partner "Bob"]) w0))) = 1%nat /\
  length (sent (snd (_run_action_custom_webhook_multi (externals unreachable)
                       (action (u "request") (u "ir.actions.server") false)
                       (batch [partner "Ann"; partner "Bob"]) w0))) = 2%nat.
Proof. vm_compute. repeat split; reflexivity. Qed.

(** C3 fails on the code. The request type is [graphql], the [type] of
    the action is what Odoo stores for a server action, and the endpoint
    answers 200 with a body that reports 404: the classifier, which tests
    [type] and not [request_type], returns 200 and the attempt succeeds. *)
Theorem graphql_request_type_unclassified :
  _get_body_status_code (externals (answers 200 not_found_body))
    (action (u "graphql") (u "ir.actions.server") true)
    (response_of 200 not_found_body) = Ok (PInt 200) /\
  final_state (externals (answers 200 not_found_body))
    (action (u "graphql") (u "ir.actions.server") true)
    (partner "Ann") None w0 = Succeeded.
Proof. vm_compute. split; reflexivity. Qed.

(** What the classifier does once [type] itself is [graphql]: the same
    answer is classified 404 and the attempt fails; of several
    [statusCode] values the last one is kept. *)
Lemma graphql_type_classified :
  _get_body_status_code (externals (answers 200 not_found_body))
    (action (u "graphql") (u "graphql") true)
    (response_of 200 not_found_body) = Ok (PInt 404) /\
  final_state (externals (answers 200 not_found_body))
    (action (u "graphql") (u "graphql") true)
    (partner "Ann") None w0 = Failed /\
  _get_body_status_code (externals (answers 201 mixed_body))
    (action (u "graphql") (u "graphql") true)
    (response_of 201 mixed_body) = Ok (PInt 200).
Proof. vm_compute. repeat split; reflexivity. Qed.

Lemma getattr_execute_post X self :
  request_method self = Some (u "post") ->
  getattr_execute X (execute_name self)
  = Ok (_execute_webhook_post_request X).
Proof.
  intros H. unfold execute_name. rewrite H.
  cbv -[_execute_webhook_get_request _execute_webhook_post_request].
  reflexivity.
Qed.

Lemma succeeded_attempt_witness :
  final_state (externals (answers 201 ok_body))
    (action (u "graphql") (u "graphql") true) (partner "Ann") None w0
  = Succeeded /\
  exists entry w2,
    _execute_webhook (externals (answers 201 ok_body))
      (action (u "graphql") (u "graphql") true) (partner "Ann") None w0
    = (Ok tt, w2) /\
    logs w2 = logs w0 ++ [entry] /\
    log_status entry = PInt 201 /\
    log_response entry = ok_body.
Proof.
  split.
  - apply (proj1 (succeeded_attempt (externals (answers 201 ok_body))
                    (action (u "graphql") (u "graphql") true)
                    (partner "Ann") None w0)).
    exists (_execute_webhook_post_request (externals (answers 201 ok_body))),
      (response_of 201 ok_body).
    eexists _, _, _.
    split; [apply getattr_execute_post; reflexivity|].
    split; [vm_compute; reflexivity|].
    split; [cbn; lia|].
    split; vm_compute; reflexivity.
  - eapply (proj2 (succeeded_attempt (externals (answers 201 ok_body))
                     (action (u "graphql") (u "graphql") true)
                     (partner "Ann") None w0)
              (_execute_webhook_post_request (externals (answers 201 ok_body)))
              (response_of 201 ok_body)).
    + apply getattr_execute_post. reflexivity.
    + vm_compute. reflexivity.
    + cbn. lia.
    + vm_compute. reflexivity.
    + reflexivity.
    + reflexivity.
Defined.

(** C5 fails on the code. The action logs its calls. When the endpoint
    answers 500, and when it cannot be reached, the attempt fails and the
    failure handler calls the audit logger with the exception in place of
    the response; the exception has no [content], so the logger raises
    [AttributeError] before any entry is built and the audit log stays
    empty. *)
Theorem failure_entry_not_written :
  (final_state (externals (answers 500 (u "oops")))
     (action (u "request") (u "ir.actions.server") true)
     (partner "Ann") None w0 = Failed /\
   _execute_webhook (externals (answers 500 (u "oops")))
     (action (u "request") (u "ir.actions.server") true)
     (partner "Ann") None w0
   = (Raise AttributeError,
      snd (_execute_webhook (externals (answers 500 (u "oops")))
             (action (u "request") (u "ir.actions.server") true)
             (partner "Ann") None w0)) /\
   logs (snd (_execute_webhook (externals (answers 500 (u "oops")))
                (action (u "request") (u "ir.actions.server") true)
                (partner "Ann") None w0)) = []) /\
  (fst (_execute_webhook (externals unreachable)
          (action (u "request") (u "ir.actions.server") true)
          (partner "Ann") None w0) = Raise AttributeError /\
   logs (snd (_execute_webhook (externals unreachable)
                (action (u "request") (u "ir.actions.server") true)
                (partner "Ann") None w0)) = []).
Proof. vm_compute. repeat split; reflexivity. Qed.

(** C6, as stated, fails: for an action whose request type and [type]
    are both [graphql], a body that is not JSON makes the classifier raise
    the error of [json.loads]. *)
Lemma classify_raises_on_malformed_json :
  ~ (forall X self response,
       request_type self = Some (u "graphql") ->
       (text response = [] \/
        exists e, json_loads X (text response) = Raise e) ->
       _get_body_status_code X self response
       = Ok (PInt (status_code response))).
Proof.
  intros H.
  specialize (H (externals (answers 200 (u "not json")))
                (action (u "graphql") (u "graphql") true)
                (response_of 200 (u "not json")) eq_refl).
  assert (E : _get_body_status_code (externals (answers 200 (u "not json")))
                (action (u "graphql") (u "graphql") true)
                (response_of 200 (u "not json"))
              = Raise MiniJson.JSONDecodeError)
    by (vm_compute; reflexivity).
  rewrite E in H. discriminate H.
  right. exists MiniJson.JSONDecodeError. vm_compute. reflexivity.
Qed.

Lemma classify_unparseable_body_witness :
  _get_body_status_code (externals (answers 200 []))
    (action (u "graphql") (u "graphql") true) (response_of 200 [])
  = Ok (PInt 200) /\
  _get_body_status_code (externals (answers 200 (u "not json")))
    (action (u "graphql") (u "ir.actions.server") true)
    (response_of 200 (u "not json"))
  = Ok (PInt 200) /\
  _get_body_status_code (externals (answers 200 (u "not json")))
    (action (u "graphql") (u "graphql") true)
    (response_of 200 (u "not json"))
  = Raise MiniJson.JSONDecodeError.
Proof.
  split; [|split].
  - apply (proj1 (classify_unparseable_body (externals (answers 200 []))
                    (action (u "graphql") (u "graphql") true)
                    (response_of 200 []))).
    reflexivity.
  - apply (proj1 (proj2 (classify_unparseable_body
                    (externals (answers 200 (u "not json")))
                    (action (u "graphql") (u "ir.actions.server") true)
                    (response_of 200 (u "not json"))))).
    vm_compute. discriminate.
  - apply (proj2 (proj2 (classify_unparseable_body
                    (externals (answers 200 (u "not json")))
                    (action (u "graphql") (u "graphql") true)
                    (response_of 200 (u "not json"))))).
    + reflexivity.
    + vm_compute. discriminate.
    + vm_compute. reflexivity.
Defined.

Lemma post_payload_falls_back_witness :
  post_payload (externals (answers 200 []))
    (action (u "slack") (u "ir.actions.server") true) (partner "Ann") ∅
  = Ok (PBytes (u "ping")) /\
  post_payload (externals (answers 200 []))
    (action (u "slack") (u "ir.actions.server") true) (partner "Ann") ∅
  = post_payload (externals (answers 200 []))
      (action (u "request") (u "ir.actions.server") true) (partner "Ann") ∅.
Proof.
  assert (H1 : request_type (action (u "slack") (u "ir.actions.server") true)
               <> Some (u "request")) by (vm_compute; discriminate).
  assert (H2 : request_type (action (u "slack") (u "ir.actions.server") true)
               <> Some (u "graphql")) by (vm_compute; discriminate).
  split.
  - rewrite (proj2 (proj2 (post_payload_falls_back (externals (answers 200 []))
               (action (u "slack") (u "ir.actions.server") true)
               (partner "Ann") ∅ H1 H2))).
    vm_compute. reflexivity.
  - apply (proj1 (proj2 (post_payload_falls_back (externals (answers 200 []))
               (action (u "slack") (u "ir.actions.server") true)
               (partner "Ann") ∅ H1 H2))).
Defined.

Lemma token_dict_ok :
  List.NoDup (map fst token_dict) /\ Forall PyLiteral.entry_ok token_dict.
Proof.
  split.
  - repeat constructor; cbn; intros H;
      repeat destruct H as [H|H]; try discriminate H; exact H.
  - repeat constructor; cbn; vm_compute; discriminate.
Qed.

Lemma request_headers_witness :
  eval_headers (externals (answers 200 []))
    (with_headers (action (u "request") (u "ir.actions.server") true) None)
  = Ok (PDict []) /\
  eval_headers (externals (answers 200 []))
    (with_headers (action (u "request") (u "ir.actions.server") true)
       (Some token_headers))
  = Ok (PDict (PyLiteral.str_items token_dict)).
Proof.
  split.
  - apply (proj1 (request_headers (externals (answers 200 [])) _
                    (scenario_evaluates_literals _)
                    (scenario_unicode_database _))).
    left. reflexivity.
  - apply (proj1 (proj2 (request_headers (externals (answers 200 [])) _
                    (scenario_evaluates_literals _)
                    (scenario_unicode_database _))) token_headers).
    + reflexivity.
    + vm_compute. discriminate.
    + vm_compute. reflexivity.
    + apply token_dict_ok.
    + apply token_dict_ok.
Defined.

End ActionFacts.

(* ===================================================================== *)
(** ** Theorems: attempts, batches and the world *)
(* ===================================================================== *)

Module EffectsFacts.

Import IrServerAction Attempt Effects Scenario.

Section Facts.

Context (X : Externals).

(** *** One attempt *)

Lemma try_block_world self record ctx w :
  logs (snd (try_block X self record ctx w)) = logs w /\
  jobs (snd (try_block X self record ctx w)) = jobs w /\
  diag (snd (try_block X self record ctx w)) = diag w /\
  (sent (snd (try_block X self record ctx w)) = sent w \/
   exists req, sent (snd (try_block X self record ctx w)) = sent w ++ [req]).
Proof.
  unfold try_block.
  destruct (getattr_execute X _) as [func|e] eqn:Hf; [|cbn; auto].
  apply ActionFacts.getattr_execute_cases in Hf.
  destruct (func self record ctx w) as [r w'] eqn:Hr.
  destruct (ActionFacts.request_world X _ _ _ _ _ _ _ Hf Hr)
    as (Hl & Hj & Hd & Hs).
  assert (Hs' : sent w' = sent w \/ exists req, sent w' = sent w ++ [req]).
  { destruct Hs as [?|(req & ? & _)]; [now left | right; now exists req]. }
  destruct r as [[response body]|e]; [|cbn; auto].
  repeat case_match; cbn; auto.
Qed.

Lemma webhook_logging_world self body response w :
  sent (snd (_webhook_logging X self body response w)) = sent w /\
  jobs (snd (_webhook_logging X self body response w)) = jobs w /\
  diag (snd (_webhook_logging X self body response w)) = diag w /\
  (logs (snd (_webhook_logging X self body response w)) = logs w \/
   exists entry,
     logs (snd (_webhook_logging X self body response w)) = logs w ++ [entry]).
Proof.
  unfold _webhook_logging, bind, lift, create.
  destruct (log_webhook_calls self); [|cbn; auto].
  destruct (getattr_content response); cbn; eauto 10.
Qed.

(** The line the failure handler writes for an exception: the first
    class of the [except] clauses the exception is an instance of. *)
Lemma handle_exception_diag self response e body w :
  exists msg,
    _handle_exception X self response e body w
    = _webhook_logging X self body (inr e) (snd (_logger_error msg w)) /\
    (isinstance_exc e (u "HTTPError") = true ->
     msg = u "HTTPError during request") /\
    (isinstance_exc e (u "HTTPError") = false ->
     isinstance_exc e (u "ConnectionError") = false ->
     isinstance_exc e (u "Timeout") = false ->
     isinstance_exc e (u "RequestException") = false ->
     msg = u "Internal exception happened during sending webhook request").
Proof.
  unfold _handle_exception, bind.
  destruct (isinstance_exc e (u "HTTPError")).
  { eexists. split; [reflexivity|]. split; [reflexivity | discriminate]. }
  destruct (isinstance_exc e (u "ConnectionError")).
  { eexists. split; [reflexivity|]. split; discriminate. }
  destruct (isinstance_exc e (u "Timeout")).
  { eexists. split; [reflexivity|]. split; discriminate. }
  destruct (isinstance_exc e (u "RequestException")).
  { eexists. split; [reflexivity|]. split; discriminate. }
  eexists. split; [reflexivity|]. split; [discriminate | reflexivity].
Qed.

Lemma execute_webhook_world self record ectx w :
  jobs (snd (_execute_webhook X self record ectx w)) = jobs w /\
  (sent (snd (_execute_webhook X self record ectx w)) = sent w \/
   exists req,
     sent (snd (_execute_webhook X self record ectx w)) = sent w ++ [req]) /\
  (logs (snd (_execute_webhook X self record ectx w)) = logs w \/
   exists entry,
     logs (snd (_execute_webhook X self record ectx w)) = logs w ++ [entry]) /\
  (final_state X self record ectx w = Succeeded ->
   diag (snd (_execute_webhook X self record ectx w)) = diag w) /\
  (final_state X self record ectx w = Failed ->
   exists msg,
     diag (snd (_execute_webhook X self record ectx w)) = diag w ++ [msg]).
Proof.
  unfold final_state, _execute_webhook.
  destruct (try_block_world self record
              (default_eval_context X record ectx) w)
    as (Hl & Hj & Hd & Hs).
  destruct (try_block X self record _ w)
    as [[response body|response body e] w1]; cbn [fst snd state_of] in *.
  - destruct (webhook_logging_world self body (inl response) w1)
      as (Hs2 & Hj2 & Hd2 & Hl2).
    rewrite Hj2, Hs2, Hd2. rewrite Hl in Hl2.
    split; [exact Hj|]. split; [exact Hs|]. split; [exact Hl2|].
    split; [intros _; exact Hd | discriminate].
  - destruct (handle_exception_diag self response e body w1)
      as (msg & -> & _).
    assert (Hw2 : sent (snd (_logger_error msg w1)) = sent w1 /\
                  logs (snd (_logger_error msg w1)) = logs w1 /\
                  jobs (snd (_logger_error msg w1)) = jobs w1 /\
                  diag (snd (_logger_error msg w1)) = diag w1 ++ [msg])
      by (repeat split; reflexivity).
    destruct Hw2 as (Es & El & Ej & Ed).
    set (w2 := snd (_logger_error msg w1)) in *.
    destruct (webhook_logging_world self body (inr e) w2)
      as (Hs2 & Hj2 & Hd2 & Hl2).
    rewrite Hj2, Hs2, Hd2, Es, Ej, Ed. rewrite El, Hl in Hl2.
    split; [exact Hj|]. split; [exact Hs|]. split; [exact Hl2|].
    split; [discriminate|]. intros _. exists msg. now rewrite Hd.
Qed.

(** X6. An attempt sends at most one request (there is no retry), adds
    at most one audit entry and never queues a job; it writes no
    diagnostic line when it succeeds and exactly one when it fails. What
    was in the world before is left as it was. *)
Theorem attempt_effects self record ectx w :
  jobs (snd (_execute_webhook X self record ectx w)) = jobs w /\
  (sent (snd (_execute_webhook X self record ectx w)) = sent w \/
   exists req,
     sent (snd (_execute_webhook X self record ectx w)) = sent w ++ [req]) /\
  (logs (snd (_execute_webhook X self record ectx w)) = logs w \/
   exists entry,
     logs (snd (_execute_webhook X self record ectx w)) = logs w ++ [entry]) /\
  (final_state X self record ectx w = Succeeded ->
   diag (snd (_execute_webhook X self record ectx w)) = diag w) /\
  (final_state X self record ectx w = Failed ->
   exists msg,
     diag (snd (_execute_webhook X self record ectx w)) = diag w ++ [msg]).
Proof. apply execute_webhook_world. Qed.

(** What follows an exception in the [try] block. *)
Lemma after_exception self record ectx w response body e w1 :
  try_block X self record (default_eval_context X record ectx) w
  = (Excepted response body e, w1) ->
  final_state X self record ectx w = Failed /\
  exists msg,
    _execute_webhook X self record ectx w
    = _webhook_logging X self body (inr e) (snd (_logger_error msg w1)) /\
    sent (snd (_execute_webhook X self record ectx w)) = sent w1 /\
    diag (snd (_execute_webhook X self record ectx w)) = diag w1 ++ [msg] /\
    (isinstance_exc e (u "HTTPError") = true ->
     msg = u "HTTPError during request") /\
    (isinstance_exc e (u "HTTPError") = false ->
     isinstance_exc e (u "ConnectionError") = false ->
     isinstance_exc e (u "Timeout") = false ->
     isinstance_exc e (u "RequestException") = false ->
     msg = u "Internal exception happened during sending webhook request").
Proof.
  intros Ht. unfold final_state, _execute_webhook. rewrite Ht.
  split; [reflexivity|].
  destruct (handle_exception_diag self response e body w1)
    as (msg & -> & H1 & H2).
  exists msg. split; [reflexivity|].
  destruct (webhook_logging_world self body (inr e)
              (snd (_logger_error msg w1))) as (Hs & _ & Hd & _).
  split; [exact Hs|]. split; [exact Hd|]. split; assumption.
Qed.

(** An exception without [content] never reaches the audit log. *)
Lemma logging_exception_without_content self body e w :
  exc_content e = None ->
  logs (snd (_webhook_logging X self body (inr e) w)) = logs w.
Proof.
  intros He. unfold _webhook_logging, bind, lift.
  destruct (log_webhook_calls self); [|reflexivity].
  cbn [getattr_content]. now rewrite He.
Qed.

Lemma execute_name_get :
  u "_execute_webhook_get_request"
  = u "_execute_webhook_" ++ u "get" ++ u "_request".
Proof. reflexivity. Qed.

Lemma execute_name_post :
  u "_execute_webhook_post_request"
  = u "_execute_webhook_" ++ u "post" ++ u "_request".
Proof. reflexivity. Qed.

Lemma getattr_execute_unknown self :
  request_method self <> Some (u "get") ->
  request_method self <> Some (u "post") ->
  getattr_execute X (execute_name self) = Raise AttributeError.
Proof.
  intros Hg Hp. unfold getattr_execute, execute_name.
  cbn [execute_methods find fst snd]. unfold pystr_eqb.
  assert (Hfmt : forall s, fmt_s (request_method self) = s ->
                           s = u "False" \/ request_method self = Some s).
  { intros s <-. destruct (request_method self); cbn; auto. }
  rewrite !bool_decide_eq_false_2; [reflexivity | |].
  - rewrite execute_name_post. intros E.
    apply app_inv_head, app_inv_tail in E. symmetry in E.
    destruct (Hfmt _ E) as [E'|E']; [discriminate | auto].
  - rewrite execute_name_get. intros E.
    apply app_inv_head, app_inv_tail in E. symmetry in E.
    destruct (Hfmt _ E) as [E'|E']; [discriminate | auto].
Qed.

(** X7. A request method other than [get] and [post] (another text, or
    no value) makes the attempt fail before anything is sent: the method
    lookup raises [AttributeError], which is reported as an internal
    exception, and neither a request nor an audit entry is produced. *)
Theorem unknown_method_fails self record ectx w :
  request_method self <> Some (u "get") ->
  request_method self <> Some (u "post") ->
  final_state X self record ectx w = Failed /\
  sent (snd (_execute_webhook X self record ectx w)) = sent w /\
  logs (snd (_execute_webhook X self record ectx w)) = logs w /\
  diag (snd (_execute_webhook X self record ectx w))
  = diag w
      ++ [u "Internal exception happened during sending webhook request"].
Proof.
  intros Hg Hp.
  assert (Ht : try_block X self record (default_eval_context X record ectx) w
               = (Excepted None PNone AttributeError, w)).
  { unfold try_block. fold (execute_name self).
    now rewrite getattr_execute_unknown. }
  destruct (after_exception _ _ _ _ _ _ _ _ Ht)
    as (Hf & msg & He & Hs & Hd & _ & Hm).
  split; [exact Hf|]. split; [exact Hs|]. split.
  - rewrite He. now rewrite logging_exception_without_content.
  - rewrite Hd. now rewrite Hm.
Qed.

Lemma request_fails_on_headers func self record ctx w e :
  func = _execute_webhook_get_request X \/
  func = _execute_webhook_post_request X ->
  eval_headers X self = Raise e ->
  func self record ctx w = (Raise e, w).
Proof.
  intros [-> | ->] He;
    unfold _execute_webhook_get_request, _execute_webhook_post_request,
      bind, lift; now rewrite He.
Qed.

(** X8. When the stored headers cannot be evaluated (the JSON parser,
    [dict] or [safe_eval] raises), the attempt fails and no request is
    sent: the headers are evaluated before the template is rendered and
    before the endpoint is called. *)
Theorem invalid_headers_send_nothing self record ectx w e :
  eval_headers X self = Raise e ->
  final_state X self record ectx w = Failed /\
  sent (snd (_execute_webhook X self record ectx w)) = sent w.
Proof.
  intros He.
  assert (Ht : exists e',
             try_block X self record (default_eval_context X record ectx) w
             = (Excepted None PNone e', w)).
  { unfold try_block.
    destruct (getattr_execute X _) as [func|e'] eqn:Hf; [|eauto].
    apply ActionFacts.getattr_execute_cases in Hf.
    rewrite (request_fails_on_headers func self record _ w e Hf He). eauto. }
  destruct Ht as (e' & Ht).
  destruct (after_exception _ _ _ _ _ _ _ _ Ht) as (Hf & msg & _ & Hs & _).
  split; assumption.
Qed.

Lemma lstrip_all_space (h : pystr) :
  Forall (fun c => PyStr.isspace c = true) h -> PyStr.lstrip h = [].
Proof.
  induction 1 as [|c h Hc _ IH]; [reflexivity|].
  cbn [PyStr.lstrip]. now rewrite Hc.
Qed.

(** X9. Stored headers made of white space only are not taken for
    empty: the field is truthy, so the text, stripped down to the empty
    string, is handed to the JSON parser, and the parser's refusal of the
    empty string is the result. *)
Theorem blank_headers_are_parsed self h e :
  headers self = Some h -> h <> [] ->
  Forall (fun c => PyStr.isspace c = true) h ->
  json_loads X [] = Raise e ->
  _get_webhook_headers X self = Raise e /\ eval_headers X self = Raise e.
Proof.
  intros Hh Hne Hsp Hj.
  assert (E : _get_webhook_headers X self = Raise e).
  { unfold _get_webhook_headers. rewrite Hh.
    destruct h as [|c h]; [contradiction|].
    unfold PyStr.strip. rewrite (lstrip_all_space _ Hsp).
    cbn [PyStr.rstrip rev PyStr.lstrip]. now rewrite Hj. }
  split; [exact E|]. unfold eval_headers. now rewrite E.
Qed.

(** X10. A response with an HTTP status from 400 to 599 fails the
    attempt whatever its body says: the body is never classified, the
    failure is reported as an HTTP error, and no audit entry is written
    (the exception raised has no [content]). *)
Theorem error_status_fails self record ectx w func response body w1 :
  getattr_execute X (execute_name self) = Ok func ->
  func self record (default_eval_context X record ectx) w
  = (Ok (response, body), w1) ->
  400 <= status_code response < 600 ->
  final_state X self record ectx w = Failed /\
  sent (snd (_execute_webhook X self record ectx w)) = sent w1 /\
  logs (snd (_execute_webhook X self record ectx w)) = logs w /\
  diag (snd (_execute_webhook X self record ectx w))
  = diag w ++ [u "HTTPError during request"].
Proof.
  intros Hf Hr Hst.
  assert (Ht : try_block X self record (default_eval_context X record ectx) w
               = (Excepted (Some response) body HTTPError, w1)).
  { unfold try_block. fold (execute_name self). rewrite Hf, Hr.
    unfold raise_for_status.
    destruct (Z.leb_spec 400 (status_code response)); [|lia].
    destruct (Z.ltb_spec (status_code response) 600); [|lia].
    reflexivity. }
  apply ActionFacts.getattr_execute_cases in Hf.
  destruct (ActionFacts.request_world X _ _ _ _ _ _ _ Hf Hr)
    as (Hl & _ & Hd & _).
  destruct (after_exception _ _ _ _ _ _ _ _ Ht)
    as (Hfail & msg & He & Hs & Hdi & Hm & _).
  split; [exact Hfail|]. split; [exact Hs|]. split.
  - rewrite He. rewrite logging_exception_without_content by reflexivity.
    exact Hl.
  - rewrite Hdi, Hd. now rewrite Hm.
Qed.

(** *** What is logged and what was sent *)

Lemma getattr_execute_get self :
  request_method self = Some (u "get") ->
  getattr_execute X (execute_name self)
  = Ok (_execute_webhook_get_request X).
Proof.
  intros H. unfold execute_name. rewrite H.
  cbv -[_execute_webhook_get_request _execute_webhook_post_request].
  reflexivity.
Qed.

Lemma succeeded_completed self record ectx w :
  final_state X self record ectx w = Succeeded ->
  exists func response body w1 status,
    try_block X self record (default_eval_context X record ectx) w
    = (Completed response body, w1) /\
    getattr_execute X (execute_name self) = Ok func /\
    func self record (default_eval_context X record ectx) w
    = (Ok (response, body), w1) /\
    _get_body_status_code X self response = Ok status.
Proof.
  unfold final_state.
  destruct (try_block X self record _ w) as [[response body|? ? ?] w1]
    eqn:Ht; [|discriminate].
  intros _. pose proof Ht as Ht'.
  apply ActionFacts.try_block_completed in Ht'.
  destruct Ht' as (func & status & Hf & Hr & _ & Hs & _).
  exists func, response, body, w1, status. auto.
Qed.

(** X11. After a successful POST attempt of an action that logs its
    calls, the world holds one more request and one more audit entry, and
    they agree: the request is a POST to the endpoint of the action with
    the built payload as data, the evaluated headers and a timeout of 5;
    the entry records that endpoint, the payload, and the headers as they
    are stored. *)
Theorem post_logged_as_sent self record ectx w :
  request_method self = Some (u "post") ->
  log_webhook_calls self = true ->
  final_state X self record ectx w = Succeeded ->
  exists req data entry,
    post_payload X self record (default_eval_context X record ectx) = Ok data /\
    eval_headers X self = Ok (req_headers req) /\
    sent (snd (_execute_webhook X self record ectx w)) = sent w ++ [req] /\
    logs (snd (_execute_webhook X self record ectx w)) = logs w ++ [entry] /\
    req_method req = u "POST" /\ req_url req = endpoint self /\
    req_data req = Some data /\ req_params req = None /\
    req_timeout req = 5 /\
    webhook_type entry = u "outgoing" /\
    log_endpoint entry = endpoint self /\
    log_headers entry = headers self /\
    log_body entry = ustr X data.
Proof.
  intros Hm Hflag Hsucc.
  destruct (succeeded_completed self record ectx w Hsucc)
    as (func & response & body & w1 & status & Ht & Hf & Hr & _).
  rewrite (ActionFacts.getattr_execute_post X self Hm) in Hf.
  injection Hf as <-.
  unfold _execute_webhook_post_request, bind, lift, ret, requests_post,
    requests_call in Hr.
  destruct (eval_headers X self) as [h|e]; [|discriminate Hr].
  destruct (post_payload X self record _) as [data|e]; [|discriminate Hr].
  destruct (requests_send X _ (sent w)) as [resp|e]; [|discriminate Hr].
  injection Hr as E1 E2 E3. subst response body.
  unfold _execute_webhook. rewrite Ht.
  pose proof (ActionFacts.webhook_logging_on X self data (inl resp) w1 Hflag)
    as Hon.
  cbn [getattr_content] in Hon. destruct Hon as (w2 & -> & Hl & Hs).
  eexists _, data, _. cbn [snd]. rewrite Hs, Hl, <- E3. cbn [sent logs].
  split; [reflexivity|]. split; [|repeat split; reflexivity].
  reflexivity.
Qed.

(** X12. After a successful GET attempt of an action that logs its
    calls, the request sent is a GET to the endpoint with a timeout of 5
    and no data; its parameters are the rendered bytes, or an empty dict
    when the template rendered to nothing, while the audit entry records
    the rendered bytes themselves. *)
Theorem get_logged_as_sent self record ectx w :
  request_method self = Some (u "get") ->
  log_webhook_calls self = true ->
  final_state X self record ectx w = Succeeded ->
  exists req params entry,
    _prepare_data_for_get X self record (default_eval_context X record ectx)
    = Ok params /\
    eval_headers X self = Ok (req_headers req) /\
    sent (snd (_execute_webhook X self record ectx w)) = sent w ++ [req] /\
    logs (snd (_execute_webhook X self record ectx w)) = logs w ++ [entry] /\
    req_method req = u "GET" /\ req_url req = endpoint self /\
    req_params req = Some (if py_truthy params then params else PDict []) /\
    req_data req = None /\ req_timeout req = 5 /\
    log_endpoint entry = endpoint self /\
    log_body entry = ustr X params.
Proof.
  intros Hm Hflag Hsucc.
  destruct (succeeded_completed self record ectx w Hsucc)
    as (func & response & body & w1 & status & Ht & Hf & Hr & _).
  rewrite (getattr_execute_get self Hm) in Hf.
  injection Hf as <-.
  unfold _execute_webhook_get_request, bind, lift, ret, requests_get,
    requests_call in Hr.
  destruct (eval_headers X self) as [h|e]; [|discriminate Hr].
  destruct (_prepare_data_for_get X self record _) as [params|e];
    [|discriminate Hr].
  destruct (requests_send X _ (sent w)) as [resp|e]; [|discriminate Hr].
  injection Hr as E1 E2 E3. subst response body.
  unfold _execute_webhook. rewrite Ht.
  pose proof (ActionFacts.webhook_logging_on X self params (inl resp) w1 Hflag)
    as Hon.
  cbn [getattr_content] in Hon. destruct Hon as (w2 & -> & Hl & Hs).
  eexists _, params, _. cbn [snd]. rewrite Hs, Hl, <- E3. cbn [sent logs].
  split; [reflexivity|]. split; [|repeat split; reflexivity].
  reflexivity.
Qed.

(** *** The payload *)

(** X13. For request type [graphql] the payload is the JSON text of an
    object with the rendered template as [query] and an empty
    [variables]; the template is rendered in a namespace that binds
    [escape] to the helper and [record] to the record, over whatever the
    context had under these names, and is otherwise the context. The
    text is not encoded, so only rendering can make the construction
    fail. *)
Theorem graphql_payload self record ctx :
  request_type self = Some (u "graphql") ->
  exists ns : Ctx,
    post_payload X self record ctx
    = rbind (jinja_render X (body_template self) ns)
        (fun query =>
           Ok (PStr (json_dumps X
                       (PDict [(PStr (u "query"), PStr query);
                               (PStr (u "variables"), PDict [])])))) /\
    ns !! u "escape" = Some (CFun Helpers.get_escaped_value) /\
    ns !! u "record" = Some (CRecords [record]) /\
    (forall k, k <> u "escape" -> k <> u "record" -> ns !! k = ctx !! k).
Proof.
  intros Hrt.
  exists (<[u "escape" := CFun Helpers.get_escaped_value]>
            (with_record ctx record)).
  split; [|split; [|split]].
  - unfold post_payload. rewrite Hrt. cbn [fmt_s].
    change (u "_prepare_data_for_post_" ++ u "graphql")
      with (u "_prepare_data_for_post_graphql").
    assert (E : hasattr_prepare X (u "_prepare_data_for_post_graphql") = true)
      by reflexivity.
    rewrite E. cbn [negb].
    assert (E' : getattr_prepare X (u "_prepare_data_for_post_graphql")
                 = Ok (_prepare_data_for_post_graphql X)).
    { unfold getattr_prepare.
      cbv -[_prepare_data_for_post_request _prepare_data_for_post_graphql].
      reflexivity. }
    rewrite E'. reflexivity.
  - apply lookup_insert_eq.
  - rewrite lookup_insert_ne by (vm_compute; discriminate).
    unfold with_record. apply lookup_insert_eq.
  - intros k H1 H2. unfold with_record.
    rewrite !lookup_insert_ne by congruence. reflexivity.
Qed.

Lemma utf8_encode_ascii (text : pystr) :
  Forall (fun c => (c < 128)%N) text -> utf8_encode text = Ok text.
Proof.
  induction 1 as [|c text Hc _ IH]; [reflexivity|].
  cbn [utf8_encode]. unfold utf8_encode_char.
  destruct (N.ltb_spec c 128); [|lia]. now rewrite IH.
Qed.

(** X14. When the template renders to ASCII text, the parameters of a
    GET request and the body of a generic POST request are that text,
    byte for byte. *)
Theorem ascii_body_is_rendered_text self record ctx text :
  jinja_render X (body_template self) (with_record ctx record) = Ok text ->
  Forall (fun c => (c < 128)%N) text ->
  _prepare_data_for_post_request X self record ctx = Ok (PBytes text) /\
  _prepare_data_for_get X self record ctx = Ok (PBytes text).
Proof.
  intros Hr Ha.
  unfold _prepare_data_for_post_request, _prepare_data_for_get.
  rewrite Hr. cbn [rbind]. rewrite (utf8_encode_ascii text Ha).
  split; reflexivity.
Qed.

Lemma utf8_encode_surrogate (text : pystr) (c : N) :
  In c text -> is_surrogate c = true ->
  utf8_encode text = Raise UnicodeEncodeError.
Proof.
  intros Hin Hc. induction text as [|c0 text IH]; [contradiction|].
  cbn [utf8_encode].
  destruct (utf8_encode_char c0) as [bs|] eqn:E; [|reflexivity].
  destruct Hin as [->|Hin].
  - exfalso. unfold utf8_encode_char, is_surrogate in *.
    apply andb_true_iff in Hc as [H1 H2].
    apply N.leb_le in H1. apply N.leb_le in H2.
    destruct (N.ltb_spec c 128); [lia|].
    destruct (N.ltb_spec c 2048); [lia|].
    destruct (N.leb_spec 55296 c); [|lia].
    destruct (N.leb_spec c 57343); [|lia].
    discriminate E.
  - now rewrite (IH Hin).
Qed.

(** X15. When the rendered text holds a lone surrogate, the body of a
    generic POST request and the parameters of a GET request cannot be
    encoded: the construction raises [UnicodeEncodeError], and the GET
    method ends there without sending a request. *)
Theorem surrogate_body_fails self record ctx text c w :
  jinja_render X (body_template self) (with_record ctx record) = Ok text ->
  In c text -> is_surrogate c = true ->
  _prepare_data_for_post_request X self record ctx
  = Raise UnicodeEncodeError /\
  _prepare_data_for_get X self record ctx = Raise UnicodeEncodeError /\
  sent (snd (_execute_webhook_get_request X self record ctx w)) = sent w.
Proof.
  intros Hr Hin Hc.
  assert (E : _prepare_data_for_get X self record ctx
              = Raise UnicodeEncodeError).
  { unfold _prepare_data_for_get. rewrite Hr. cbn [rbind].
    now rewrite (utf8_encode_surrogate text c Hin Hc). }
  split; [exact E|]. split; [exact E|].
  unfold _execute_webhook_get_request, bind, lift.
  destruct (eval_headers X self); [|reflexivity].
  now rewrite E.
Qed.

Lemma utf8_encode_char_bounds (c : N) :
  (c <= 1114111)%N -> is_surrogate c = false ->
  exists bs,
    utf8_encode_char c = Some bs /\
    Forall (fun b => (b < 256)%N) bs /\
    (1 <= length bs <= 4)%nat.
Proof.
  intros Hc Hs. unfold utf8_encode_char.
  fold (is_surrogate c). rewrite Hs.
  pose proof (N.mod_lt c 64 ltac:(discriminate)).
  pose proof (N.mod_lt (c / 64) 64 ltac:(discriminate)).
  pose proof (N.mod_lt (c / 4096) 64 ltac:(discriminate)).
  destruct (N.ltb_spec c 128).
  { eexists. split; [reflexivity|]. split; [|cbn; lia].
    repeat constructor. lia. }
  destruct (N.ltb_spec c 2048).
  { eexists. split; [reflexivity|]. split; [|cbn; lia].
    assert (c / 64 < 32)%N by (apply N.Div0.div_lt_upper_bound; lia).
    repeat constructor; lia. }
  destruct (N.ltb_spec c 65536).
  { eexists. split; [reflexivity|]. split; [|cbn; lia].
    assert (c / 4096 < 16)%N by (apply N.Div0.div_lt_upper_bound; lia).
    repeat constructor; lia. }
  eexists. split; [reflexivity|]. split; [|cbn; lia].
  assert (c / 262144 < 5)%N by (apply N.Div0.div_lt_upper_bound; lia).
  repeat constructor; lia.
Qed.

Lemma utf8_encode_bounds (text : pystr) :
  Forall (fun c => (c <= 1114111)%N /\ is_surrogate c = false) text ->
  exists b,
    utf8_encode text = Ok b /\
    Forall (fun x => (x < 256)%N) b /\
    (length text <= length b <= 4 * length text)%nat.
Proof.
  induction 1 as [|c text [Hc Hs] _ (b & Hb & Hall & Hlen)].
  - exists []. repeat split; [constructor | reflexivity | reflexivity].
  - destruct (utf8_encode_char_bounds c Hc Hs) as (bs & Hbs & Hbsall & Hbslen).
    exists (bs ++ b). cbn [utf8_encode]. rewrite Hbs, Hb.
    split; [reflexivity|]. split; [now apply Forall_app|].
    rewrite length_app. cbn [length]. lia.
Qed.

(** X16. When the rendered text is made of code points other than lone
    surrogates, the generic body is built: a sequence of bytes (each
    below 256) with at least one and at most four bytes per character
    of the text. *)
Theorem generic_body_bytes self record ctx text :
  jinja_render X (body_template self) (with_record ctx record) = Ok text ->
  Forall (fun c => (c <= 1114111)%N /\ is_surrogate c = false) text ->
  exists b,
    _prepare_data_for_post_request X self record ctx = Ok (PBytes b) /\
    Forall (fun x => (x < 256)%N) b /\
    (length text <= length b <= 4 * length text)%nat.
Proof.
  intros Hr Ht.
  destruct (utf8_encode_bounds text Ht) as (b & Hb & Hall & Hlen).
  exists b. unfold _prepare_data_for_post_request.
  rewrite Hr. cbn [rbind]. rewrite Hb. auto.
Qed.

(** *** The status classifier on odd bodies *)

Lemma classify_graphql self response v :
  type self = Some (u "graphql") -> text response <> [] ->
  json_loads X (text response) = Ok v ->
  _get_body_status_code X self response
  = if py_truthy v then
      rbind (get_data v)
        (fun data =>
           if py_truthy data && isinstance_dict data then
             match data with
             | PDict d => Ok (scan_data (PInt (status_code response)) d)
             | _ => Ok (PInt (status_code response))
             end
           else Ok (PInt (status_code response)))
    else Ok (PInt (status_code response)).
Proof.
  intros Ht Hne Hj. unfold _get_body_status_code.
  apply ActionFacts.field_eq_true in Ht. rewrite Ht.
  destruct (text response) as [|c s] eqn:E; [contradiction|].
  cbn [py_truthy]. rewrite Hj. reflexivity.
Qed.

(** X17. With [type] equal to [graphql], a body that parses to a falsy
    value ([null], [false], [0], an empty string, array or object), or to
    an object whose [data] is missing, falsy or not an object, is
    classified by the HTTP status code. *)
Theorem classify_falls_back self response v :
  type self = Some (u "graphql") -> text response <> [] ->
  json_loads X (text response) = Ok v ->
  (py_truthy v = false \/
   exists d, v = PDict d /\
             (py_truthy (dict_get d (u "data")) = false \/
              isinstance_dict (dict_get d (u "data")) = false)) ->
  _get_body_status_code X self response = Ok (PInt (status_code response)).
Proof.
  intros Ht Hne Hj Hv. rewrite (classify_graphql self response v Ht Hne Hj).
  destruct Hv as [-> | (d & -> & Hd)]; [reflexivity|].
  destruct (py_truthy (PDict d)); [|reflexivity].
  cbn [get_data rbind].
  destruct Hd as [-> | Hd]; [reflexivity|].
  rewrite Hd, andb_false_r. reflexivity.
Qed.

(** X18. With [type] equal to [graphql], a body that parses to a truthy
    value that is not an object (an array, a number, a string, [true])
    makes the classifier raise [AttributeError]: it calls [get] on it. *)
Theorem classify_non_object_raises self response v :
  type self = Some (u "graphql") -> text response <> [] ->
  json_loads X (text response) = Ok v ->
  py_truthy v = true -> isinstance_dict v = false ->
  _get_body_status_code X self response = Raise AttributeError.
Proof.
  intros Ht Hne Hj Htr Hd.
  rewrite (classify_graphql self response v Ht Hne Hj), Htr.
  destruct v; try discriminate Hd; reflexivity.
Qed.

Lemma scan_items_none items a :
  existsb (is_key (u "statusCode")) items = false ->
  fold_left (fun status_code kv =>
               if is_key (u "statusCode") kv then snd kv else status_code)
            items a = a.
Proof.
  revert a. induction items as [|kv items IH]; [reflexivity|].
  intros a H. cbn [existsb] in H. apply orb_false_iff in H as [H1 H2].
  cbn [fold_left]. rewrite H1. now apply IH.
Qed.

Lemma scan_data_none entries status :
  no_status_code entries -> scan_data status entries = status.
Proof.
  unfold scan_data. intros H. revert status.
  induction H as [|kv entries Hkv _ IH]; [reflexivity|].
  intros status. cbn [fold_left]. rewrite <- (IH status) at 2.
  f_equal. unfold scan_value.
  destruct (snd kv) as [| | | | | | |items] eqn:E; try reflexivity.
  now apply scan_items_none, Hkv.
Qed.

(** X19. With [type] equal to [graphql], when no object directly under
    [data] has the key [statusCode], the HTTP status code stands: a
    [statusCode] that sits directly under [data], or deeper than one
    object below it, is not looked at. *)
Theorem classify_without_status_code self response d entries :
  type self = Some (u "graphql") -> text response <> [] ->
  json_loads X (text response) = Ok (PDict d) ->
  dict_get d (u "data") = PDict entries ->
  no_status_code entries ->
  _get_body_status_code X self response = Ok (PInt (status_code response)).
Proof.
  intros Ht Hne Hj Hd Hno.
  rewrite (classify_graphql self response _ Ht Hne Hj).
  destruct (py_truthy (PDict d)); [|reflexivity].
  cbn [get_data rbind]. rewrite Hd.
  destruct (py_truthy (PDict entries) && isinstance_dict (PDict entries));
    [|reflexivity].
  now rewrite scan_data_none.
Qed.

(** X20. With [type] equal to [graphql], when objects under [data] have
    a [statusCode], the classified status is the value of that key in the
    last of these objects, whatever its type and whatever the HTTP
    status. *)
Theorem classify_last_status_code
    self response d before k items1 v items2 after :
  type self = Some (u "graphql") -> text response <> [] ->
  json_loads X (text response) = Ok (PDict d) ->
  dict_get d (u "data")
  = PDict (before
             ++ [(k, PDict (items1 ++ [(PStr (u "statusCode"), v)] ++ items2))]
             ++ after) ->
  existsb (is_key (u "statusCode")) items2 = false ->
  no_status_code after ->
  _get_body_status_code X self response = Ok v.
Proof.
  intros Ht Hne Hj Hd H2 Hafter.
  rewrite (ActionFacts.classify_scans_data X self response d _ Ht Hne Hj Hd)
    by (destruct before; discriminate).
  f_equal. rewrite ActionFacts.scan_data_last.
  - cbn [scan_value]. rewrite !fold_left_app. cbn [fold_left].
    change (is_key (u "statusCode") (PStr (u "statusCode"), v)) with true.
    cbn [snd]. now apply scan_items_none.
  - rewrite !existsb_app. cbn [existsb].
    change (is_key (u "statusCode") (PStr (u "statusCode"), v)) with true.
    now rewrite orb_true_r.
  - intros s0. now apply scan_data_none.
Qed.

(** *** The batch *)

Lemma for_each_ext {A} (l : list A) (f g : A -> M unit) w :
  (forall a w, f a w = g a w) -> for_each l f w = for_each l g w.
Proof.
  intros H. revert w. induction l as [|a l IH]; intros w; [reflexivity|].
  cbn [for_each]. unfold bind. rewrite H.
  destruct (g a w) as [[[]|e] w']; [apply IH | reflexivity].
Qed.

Lemma for_each_delay self records s l j d :
  for_each records (with_delay_execute_webhook self)
    {| sent := s; logs := l; jobs := j; diag := d |}
  = (Ok tt, {| sent := s; logs := l; jobs := j ++ queued self records;
               diag := d |}).
Proof.
  revert j. induction records as [|r records IH]; intros j.
  - cbn [for_each queued map]. now rewrite app_nil_r.
  - cbn [for_each]. unfold bind, with_delay_execute_webhook at 1.
    cbn [sent logs jobs diag]. rewrite IH.
    cbn [queued map]. now rewrite <- app_assoc.
Qed.

(** X21. With [delay_execution] on, the batch sends no request and
    writes no audit entry or diagnostic: it queues one job per record, in
    the order of the records and each with the delay of the action, and
    returns the [action] entry of the context. *)
Theorem delayed_batch_only_queues self ctx records w :
  delay_execution self = true ->
  iter_records ctx = Ok records ->
  _run_action_custom_webhook_multi X self ctx w
  = (Ok (context_action ctx),
     {| sent := sent w; logs := logs w;
        jobs := jobs w ++ queued self records; diag := diag w |}).
Proof.
  intros Hd Hr. unfold _run_action_custom_webhook_multi.
  rewrite Hr. unfold bind at 1. unfold lift. unfold bind.
  rewrite (for_each_ext records _ (with_delay_execute_webhook self))
    by (intros a w0; now rewrite Hd).
  destruct w as [s l j d]. rewrite for_each_delay. reflexivity.
Qed.


Lemma grows_refl n w : grows n w w.
Proof.
  exists [], [], [], []. rewrite !app_nil_r. cbn. repeat split; lia.
Qed.

Lemma grows_trans n m w1 w2 w3 :
  grows n w1 w2 -> grows m w2 w3 -> grows (n + m) w1 w3.
Proof.
  intros (ss & ls & js & ds & Hs & Hl & Hj & Hd & ? & ? & ? & ?)
         (ss' & ls' & js' & ds' & Hs' & Hl' & Hj' & Hd' & ? & ? & ? & ?).
  exists (ss ++ ss'), (ls ++ ls'), (js ++ js'), (ds ++ ds').
  rewrite Hs', Hl', Hj', Hd', Hs, Hl, Hj, Hd, !app_assoc, !length_app.
  repeat split; lia.
Qed.

Lemma grows_attempt self record ectx w :
  grows 1 w (snd (_execute_webhook X self record ectx w)).
Proof.
  destruct (execute_webhook_world self record ectx w)
    as (Hj & Hs & Hl & Hd1 & Hd2).
  assert (Hd : exists ds,
             diag (snd (_execute_webhook X self record ectx w)) = diag w ++ ds
             /\ (length ds <= 1)%nat).
  { destruct (final_state X self record ectx w).
    - exists []. rewrite app_nil_r. split; [now apply Hd1 | cbn; lia].
    - destruct (Hd2 eq_refl) as [msg Hm]. exists [msg].
      split; [exact Hm | cbn; lia]. }
  destruct Hd as (ds & Hd & Hdl).
  assert (Hs' : exists ss,
             sent (snd (_execute_webhook X self record ectx w)) = sent w ++ ss
             /\ (length ss <= 1)%nat).
  { destruct Hs as [->|[req ->]];
      [exists []; rewrite app_nil_r | exists [req]]; split; cbn; auto. }
  assert (Hl' : exists ls,
             logs (snd (_execute_webhook X self record ectx w)) = logs w ++ ls
             /\ (length ls <= 1)%nat).
  { destruct Hl as [->|[entry ->]];
      [exists []; rewrite app_nil_r | exists [entry]]; split; cbn; auto. }
  destruct Hs' as (ss & Hss & ?). destruct Hl' as (ls & Hls & ?).
  exists ss, ls, [], ds. rewrite app_nil_r.
  repeat split; try assumption; cbn; lia.
Qed.

Lemma grows_delay self record w :
  grows 1 w (snd (with_delay_execute_webhook self record w)).
Proof.
  exists [], [], [(record, delay self)], [].
  cbn. rewrite !app_nil_r. repeat split; lia.
Qed.

Lemma grows_for_each {A} (l : list A) (body : A -> M unit) w :
  (forall a w, grows 1 w (snd (body a w))) ->
  grows (length l) w (snd (for_each l body w)).
Proof.
  intros Hb. revert w. induction l as [|a l IH]; intros w.
  - apply grows_refl.
  - cbn [for_each length]. unfold bind.
    pose proof (Hb a w) as H1.
    destruct (body a w) as [[[]|e] w1]; cbn [snd] in *.
    + change (S (length l)) with (1 + length l)%nat.
      eapply grows_trans; [exact H1 | apply IH].
    + destruct H1 as (ss & ls & js & ds & ? & ? & ? & ? & ? & ? & ? & ?).
      exists ss, ls, js, ds. repeat split; try assumption; lia.
Qed.

(** X23. Whatever happens during a batch, the world only grows:
    requests, audit entries, jobs and diagnostic lines already recorded
    are neither changed nor removed, and each of the four gains at most
    one item per record of the batch. *)
Theorem batch_append_only self ctx records w :
  iter_records ctx = Ok records ->
  grows (length records) w
    (snd (_run_action_custom_webhook_multi X self ctx w)).
Proof.
  intros Hr. unfold _run_action_custom_webhook_multi.
  rewrite Hr. unfold bind at 1. unfold lift. unfold bind.
  pose proof (grows_for_each records
    (fun record =>
       if delay_execution self
       then with_delay_execute_webhook self record
       else _execute_webhook X self record (Some ctx)) w) as Hg.
  destruct (for_each records _ w) as [[[]|e] w1]; cbn [snd] in *;
    apply Hg; intros a w0;
    (destruct (delay_execution self);
     [apply grows_delay | apply grows_attempt]).
Qed.




End Facts.

(** *** Worked scenarios *)

Import Cases.

Lemma unknown_method_fails_witness :
  final_state (externals (answers 200 []))
    (custom_action (Some (u "put")) (Some (u "request")) None
       (Some (u "ping")) true false)
    (partner "Ann") None w0 = Failed /\
  sent (snd (_execute_webhook (externals (answers 200 []))
               (custom_action (Some (u "put")) (Some (u "request")) None
                  (Some (u "ping")) true false)
               (partner "Ann") None w0)) = [].
Proof.
  destruct (unknown_method_fails (externals (answers 200 []))
              (custom_action (Some (u "put")) (Some (u "request")) None
                 (Some (u "ping")) true false)
              (partner "Ann") None w0) as (H1 & H2 & _).
  - vm_compute. discriminate.
  - vm_compute. discriminate.
  - split; [exact H1 | exact H2].
Defined.

Lemma invalid_headers_send_nothing_witness :
  final_state (externals (answers 200 []))
    (with_headers (post_action true) (Some broken_headers))
    (partner "Ann") None w0 = Failed /\
  sent (snd (_execute_webhook (externals (answers 200 []))
               (with_headers (post_action true) (Some broken_headers))
               (partner "Ann") None w0)) = sent w0.
Proof.
  apply (invalid_headers_send_nothing (externals (answers 200 []))
           (with_headers (post_action true) (Some broken_headers))
           (partner "Ann") None w0 MiniJson.JSONDecodeError).
  vm_compute. reflexivity.
Defined.

Lemma blank_headers_are_parsed_witness :
  _get_webhook_headers (externals (answers 200 []))
    (with_headers (post_action true) (Some blank_headers))
  = Raise MiniJson.JSONDecodeError /\
  eval_headers (externals (answers 200 []))
    (with_headers (post_action true) (Some blank_headers))
  = Raise MiniJson.JSONDecodeError.
Proof.
  apply (blank_headers_are_parsed (externals (answers 200 []))
           (with_headers (post_action true) (Some blank_headers))
           blank_headers MiniJson.JSONDecodeError).
  - reflexivity.
  - discriminate.
  - repeat constructor.
  - vm_compute. reflexivity.
Defined.

Lemma error_status_fails_witness :
  final_state (externals (answers 404 ok_body))
    (action (u "graphql") (u "graphql") true) (partner "Ann") None w0
  = Failed /\
  logs (snd (_execute_webhook (externals (answers 404 ok_body))
               (action (u "graphql") (u "graphql") true)
               (partner "Ann") None w0)) = logs w0.
Proof.
  destruct (error_status_fails (externals (answers 404 ok_body))
              (action (u "graphql") (u "graphql") true)
              (partner "Ann") None w0
              (_execute_webhook_post_request (externals (answers 404 ok_body)))
              (response_of 404 ok_body)
              (PStr (MiniJson.dumps
                       (PDict [(PStr (u "query"), PStr (u "ping"));
                               (PStr (u "variables"), PDict [])])))
              (snd (_execute_webhook_post_request
                      (externals (answers 404 ok_body))
                      (action (u "graphql") (u "graphql") true)
                      (partner "Ann")
                      (default_eval_context (externals (answers 404 ok_body))
                         (partner "Ann") None) w0)))
    as (H1 & _ & H2 & _).
  - apply ActionFacts.getattr_execute_post. reflexivity.
  - vm_compute. reflexivity.
  - cbn. lia.
  - split; [exact H1 | exact H2].
Defined.

Lemma post_logged_as_sent_witness :
  exists req entry,
    sent (snd (_execute_webhook (externals (answers 200 (u "ok")))
                 (post_action true) (partner "Ann") None w0)) = [req] /\
    logs (snd (_execute_webhook (externals (answers 200 (u "ok")))
                 (post_action true) (partner "Ann") None w0)) = [entry] /\
    req_data req = Some (PBytes (u "ping")) /\
    log_body entry = u "ping".
Proof.
  destruct (post_logged_as_sent (externals (answers 200 (u "ok")))
              (post_action true) (partner "Ann") None w0)
    as (req & data & entry & Hp & _ & Hs & Hl & _ & _ & Hd & _ & _ & _ & _
        & _ & Hb).
  - reflexivity.
  - reflexivity.
  - vm_compute. reflexivity.
  - assert (E : data = PBytes (u "ping")).
    { vm_compute in Hp. now injection Hp as <-. }
    subst data. exists req, entry.
    split; [exact Hs|]. split; [exact Hl|]. split; [exact Hd | exact Hb].
Defined.

Lemma get_logged_as_sent_witness :
  exists req entry,
    sent (snd (_execute_webhook (externals (answers 200 (u "ok")))
                 (get_action [] true) (partner "Ann") None w0)) = [req] /\
    logs (snd (_execute_webhook (externals (answers 200 (u "ok")))
                 (get_action [] true) (partner "Ann") None w0)) = [entry] /\
    req_params req = Some (PDict []) /\
    log_body entry = [].
Proof.
  destruct (get_logged_as_sent (externals (answers 200 (u "ok")))
              (get_action [] true) (partner "Ann") None w0)
    as (req & params & entry & Hp & _ & Hs & Hl & _ & _ & Hpar & _ & _ & _
        & Hb).
  - reflexivity.
  - reflexivity.
  - vm_compute. reflexivity.
  - assert (E : params = PBytes []).
    { vm_compute in Hp. now injection Hp as <-. }
    subst params. exists req, entry.
    split; [exact Hs|]. split; [exact Hl|]. split; [exact Hpar | exact Hb].
Defined.

Lemma graphql_payload_witness :
  exists ns : Ctx,
    post_payload (externals (answers 200 [])) graphql_action
      (partner "Ann") ∅
    = Ok (PStr (dq "{'query': 'query { ping }', 'variables': {}}")) /\
    ns !! u "escape" = Some (CFun Helpers.get_escaped_value).
Proof.
  destruct (graphql_payload (externals (answers 200 [])) graphql_action
              (partner "Ann") ∅ eq_refl) as (ns & Hp & He & _).
  exists ns. split; [|exact He].
  rewrite Hp. reflexivity.
Defined.

Lemma ascii_body_is_rendered_text_witness :
  _prepare_data_for_post_request (externals (answers 200 []))
    (post_action true) (partner "Ann") ∅ = Ok (PBytes (u "ping")) /\
  _prepare_data_for_get (externals (answers 200 []))
    (post_action true) (partner "Ann") ∅ = Ok (PBytes (u "ping")).
Proof.
  apply (ascii_body_is_rendered_text (externals (answers 200 []))
           (post_action true) (partner "Ann") ∅ (u "ping")).
  - reflexivity.
  - repeat constructor.
Defined.

Lemma surrogate_body_fails_witness :
  _prepare_data_for_post_request (externals (answers 200 []))
    (get_action surrogate_text true) (partner "Ann") ∅
  = Raise UnicodeEncodeError /\
  _prepare_data_for_get (externals (answers 200 []))
    (get_action surrogate_text true) (partner "Ann") ∅
  = Raise UnicodeEncodeError /\
  sent (snd (_execute_webhook_get_request (externals (answers 200 []))
               (get_action surrogate_text true) (partner "Ann") ∅ w0))
  = sent w0.
Proof.
  apply (surrogate_body_fails (externals (answers 200 []))
           (get_action surrogate_text true) (partner "Ann") ∅
           surrogate_text 55296%N w0).
  - reflexivity.
  - right. left. reflexivity.
  - reflexivity.
Defined.

Lemma generic_body_bytes_witness :
  exists b,
    _prepare_data_for_post_request (externals (answers 200 []))
      (get_action mixed_text true) (partner "Ann") ∅ = Ok (PBytes b) /\
    Forall (fun x => (x < 256)%N) b /\
    (length mixed_text <= length b <= 4 * length mixed_text)%nat.
Proof.
  apply (generic_body_bytes (externals (answers 200 []))
           (get_action mixed_text true) (partner "Ann") ∅ mixed_text).
  - reflexivity.
  - repeat constructor; vm_compute; discriminate.
Defined.

Lemma classify_falls_back_witness :
  _get_body_status_code (externals (answers 200 null_body))
    (action (u "graphql") (u "graphql") true) (response_of 200 null_body)
  = Ok (PInt 200).
Proof.
  apply (classify_falls_back (externals (answers 200 null_body))
           (action (u "graphql") (u "graphql") true)
           (response_of 200 null_body) PNone).
  - reflexivity.
  - discriminate.
  - vm_compute. reflexivity.
  - left. reflexivity.
Defined.

Lemma classify_non_object_raises_witness :
  _get_body_status_code (externals (answers 200 array_body))
    (action (u "graphql") (u "graphql") true) (response_of 200 array_body)
  = Raise AttributeError.
Proof.
  apply (classify_non_object_raises (externals (answers 200 array_body))
           (action (u "graphql") (u "graphql") true)
           (response_of 200 array_body) (PList [PInt 1])).
  - reflexivity.
  - discriminate.
  - vm_compute. reflexivity.
  - reflexivity.
  - reflexivity.
Defined.

Lemma classify_without_status_code_witness :
  _get_body_status_code (externals (answers 200 misplaced_body))
    (action (u "graphql") (u "graphql") true)
    (response_of 200 misplaced_body)
  = Ok (PInt 200).
Proof.
  eapply (classify_without_status_code
            (externals (answers 200 misplaced_body))
            (action (u "graphql") (u "graphql") true)
            (response_of 200 misplaced_body)).
  - reflexivity.
  - discriminate.
  - vm_compute. reflexivity.
  - vm_compute. reflexivity.
  - repeat constructor; cbn; intros items E; try discriminate E.
    injection E as <-. reflexivity.
Defined.

Lemma classify_last_status_code_witness :
  _get_body_status_code (externals (answers 201 mixed_body))
    (action (u "graphql") (u "graphql") true) (response_of 201 mixed_body)
  = Ok (PInt 200).
Proof.
  eapply (classify_last_status_code
            (externals (answers 201 mixed_body))
            (action (u "graphql") (u "graphql") true)
            (response_of 201 mixed_body) _
            [(PStr (u "a"),
              PDict [(PStr (u "statusCode"), PInt 500)])]
            (PStr (u "b")) [] (PInt 200) []
            [(PStr (u "c"), PDict [(PStr (u "n"), PInt 1)])]).
  - reflexivity.
  - discriminate.
  - vm_compute. reflexivity.
  - vm_compute. reflexivity.
  - reflexivity.
  - repeat constructor; cbn; intros items E.
    injection E as <-. reflexivity.
Defined.

Lemma delayed_batch_only_queues_witness :
  _run_action_custom_webhook_multi (externals unreachable) delayed_action
    (batch_with_action [partner "Ann"; partner "Bob"]) w0
  = (Ok (COpaque 5),
     {| sent := []; logs := [];
        jobs := [(partner "Ann", 30); (partner "Bob", 30)]; diag := [] |}).
Proof.
  apply (delayed_batch_only_queues (externals unreachable) delayed_action
           (batch_with_action [partner "Ann"; partner "Bob"])
           [partner "Ann"; partner "Bob"] w0).
  - reflexivity.
  - vm_compute. reflexivity.
Defined.


Lemma batch_append_only_witness :
  grows 2 w0
    (snd (_run_action_custom_webhook_multi (externals unreachable)
            (post_action true) (batch [partner "Ann"; partner "Bob"]) w0)).
Proof.
  apply (batch_append_only (externals unreachable) (post_action true)
           (batch [partner "Ann"; partner "Bob"])
           [partner "Ann"; partner "Bob"] w0).
  vm_compute. reflexivity.
Defined.



End EffectsFacts.
